(** * download_todays_data.py: a shallow embedding and its properties

    The script downloads one CSV per trading day through a browser session.
    The embedding follows the source top to bottom:

    - [Py]: the fragment of Python's run-time behaviour the script relies on
      (exceptions, attribute lookup, bound-method calls, [try] statements),
      as a state-and-exception monad over a trace of external events;
    - [PyStr], [PyPath], [PyDate]: [str.split], [pathlib] name parts,
      [datetime] ordinals, weekdays and [strptime] for ["%Y-%m-%d"];
    - [DownloadFile], [PriceFileManager], [MarketChecker], [PriceDataApp]:
      the four classes of the script, method by method.

    Strings are byte strings, the UTF-8 encoding of the text; wall-clock
    seconds are integers. *)

From Stdlib Require Import ZArith Ascii String Lia.
From stdpp Require Import base decidable list sorting gmap strings.

Local Open Scope Z_scope.

(** ** Python run-time fragment *)

Module Py.

(** Exception classes that occur.  [KeyboardInterrupt] derives from
    [BaseException] only; the others derive from [Exception]. *)
Inductive exn : Set :=
| AttributeError | TypeError | ValueError | UnboundLocalError
| OSError | WebDriverException | TimeoutException | JavascriptException
| KeyboardInterrupt.

Definition is_Exception (e : exn) : bool :=
  match e with
  | KeyboardInterrupt => false
  | _ => true
  end.

#[global] Instance exn_eq_dec : EqDecision exn.
Proof. solve_decision. Defined.

(** Outcome of running a piece of code: a value, a raised exception, or
    a loop that used up the iteration budget it was given. *)
Inductive result (A : Type) : Type :=
| Ok (a : A)
| Raise (e : exn)
| OutOfFuel.
Arguments Ok {A} a.
Arguments Raise {A} e.
Arguments OutOfFuel {A}.

Inductive level : Set := INFO | WARNING | ERROR.

(** [logging] level numbers. *)
Definition levelno (l : level) : Z :=
  match l with INFO => 20 | WARNING => 30 | ERROR => 40 end.
Definition CRITICAL : Z := 50.

(** A located page element (the value of [wait.until(...)]). *)
Definition element : Set := nat.

(** What the script does to the outside world, in program order. *)
Inductive event : Type :=
| EvGlob (dir pattern : string)          (* Path(dir).glob(pattern) *)
| EvStat (path : string)                 (* Path.is_file / Path.stat *)
| EvBrowserStart                         (* webdriver.Chrome(...) *)
| EvExecuteScript (script : string) (arg : option element)
| EvGet (url : string)                   (* driver.get *)
| EvWaitUntil (xpath : string)           (* wait.until(clickable) *)
| EvClick (el : element)
| EvQuit                                 (* driver.quit *)
| EvPkill                                (* pkill -f chromedriver *)
| EvSleep (seconds : Z)                  (* a sleep that took place *)
| EvTraceback                            (* traceback.print_exc *)
| EvLoggingError                         (* a record that cannot be formatted *)
| EvLog (l : level) (msg : string).      (* an emitted log record *)

#[global] Instance level_eq_dec : EqDecision level.
Proof. solve_decision. Defined.
#[global] Instance event_eq_dec : EqDecision event.
Proof. solve_decision. Defined.

Definition trace := list event.

Definition is_filesystem_event (ev : event) : bool :=
  match ev with EvGlob _ _ | EvStat _ => true | _ => false end.

Definition is_browser_event (ev : event) : bool :=
  match ev with
  | EvBrowserStart | EvExecuteScript _ _ | EvGet _ | EvWaitUntil _
  | EvClick _ | EvQuit => true
  | _ => false
  end.

(** Code is a function of the trace so far: it yields an outcome and the
    extended trace. *)
Definition M (A : Type) : Type := trace -> result A * trace.

Definition ret {A} (a : A) : M A := fun tr => (Ok a, tr).
Definition raise {A} (e : exn) : M A := fun tr => (Raise e, tr).
Definition diverge {A} : M A := fun tr => (OutOfFuel, tr).

Definition bind {A B} (m : M A) (k : A -> M B) : M B :=
  fun tr =>
    match m tr with
    | (Ok a, tr') => k a tr'
    | (Raise e, tr') => (Raise e, tr')
    | (OutOfFuel, tr') => (OutOfFuel, tr')
    end.

Definition emit (ev : event) : M unit := fun tr => (Ok tt, tr ++ [ev]).
Definition history : M trace := fun tr => (Ok tr, tr).

(** [try: m  except Exception as e: h e]. *)
Definition try_except {A} (m : M A) (h : exn -> M A) : M A :=
  fun tr =>
    match m tr with
    | (Raise e, tr') => if is_Exception e then h e tr' else (Raise e, tr')
    | r => r
    end.

(** [try: m  finally: f].  The [finally] suite runs whether [m] returned
    or raised; an exception raised by [f] replaces the pending one. *)
Definition try_finally {A} (m : M A) (f : M unit) : M A :=
  fun tr =>
    match m tr with
    | (OutOfFuel, tr') => (OutOfFuel, tr')
    | (r, tr') =>
        match f tr' with
        | (Ok _, tr'') => (r, tr'')
        | (Raise e, tr'') => (Raise e, tr'')
        | (OutOfFuel, tr'') => (OutOfFuel, tr'')
        end
    end.

(** [obj.name] on an object whose attributes are [attrs]. *)
Definition getattr (attrs : list string) (name : string) : M unit :=
  if bool_decide (name ∈ attrs) then ret tt else raise AttributeError.

(** [instance.method(arg)] for a function written in a class body with
    parameter list [params]: the instance is passed first, so the call
    supplies two positional arguments, and an arity mismatch raises
    [TypeError] before the body starts. *)
Definition call_bound {A B} (params : list string) (body : A -> M B)
    (arg : A) : M B :=
  if bool_decide (length params = 2%nat) then body arg else raise TypeError.

End Py.

Export Py.

Declare Scope py_scope.
Delimit Scope py_scope with py.
Notation "x <- m ;; k" := (bind m (fun x => k))
  (at level 100, m at next level, right associativity) : py_scope.
Notation "m ;; k" := (bind m (fun _ => k))
  (at level 100, right associativity) : py_scope.

(** ** [str] methods *)

Module PyStr.

(** [s.split(sep)] for a non-empty [sep]: left to right, occurrences do
    not overlap.  [skip] counts separator characters still to drop. *)
Fixpoint split_from (sep : string) (skip : nat) (cur s : string)
    : list string :=
  match s with
  | EmptyString => [cur]
  | String c s' =>
      match skip with
      | S k => split_from sep k cur s'
      | O =>
          if String.prefix sep s
          then cur :: split_from sep (String.length sep - 1) "" s'
          else split_from sep 0 (cur +:+ String c "") s'
      end
  end.

Definition split (sep s : string) : list string := split_from sep 0 "" s.

(** [xs[-1]] on the non-empty list that [split] returns. *)
Definition last_item (xs : list string) : string := List.last xs "".

(** [s.rfind(".")], as [None] for -1. *)
Fixpoint rfind_dot_from (i : nat) (found : option nat) (s : string)
    : option nat :=
  match s with
  | EmptyString => found
  | String c s' =>
      rfind_dot_from (S i)
        (if Ascii.eqb c "."%char then Some i else found) s'
  end.

Definition rfind_dot (s : string) : option nat := rfind_dot_from 0 None s.

Definition lower_char (c : ascii) : ascii :=
  let n := nat_of_ascii c in
  if ((65 <=? n) && (n <=? 90))%nat then ascii_of_nat (n + 32) else c.

Fixpoint lower (s : string) : string :=
  match s with
  | EmptyString => EmptyString
  | String c s' => String (lower_char c) (lower s')
  end.

(** [c in s]. *)
Fixpoint has_char (c : ascii) (s : string) : bool :=
  match s with
  | EmptyString => false
  | String x s' => Ascii.eqb x c || has_char c s'
  end.

(** Every character of [s] is an ASCII character (below 128). *)
Fixpoint is_ascii (s : string) : bool :=
  match s with
  | EmptyString => true
  | String x s' => (nat_of_ascii x <? 128)%nat && is_ascii s'
  end.

(** [s.endswith(suf)]. *)
Definition endswith (suf s : string) : bool :=
  let n := String.length s in
  let k := String.length suf in
  ((k <=? n)%nat && String.eqb (String.substring (n - k) k s) suf)%bool.

End PyStr.

(** ** [pathlib] name parts *)

Module PyPath.

(** The components of a path text as [pathlib] keeps them: the pieces
    between separators, without the empty ones and without ["."]. *)
Definition components (s : string) : list string :=
  List.filter
    (fun x => negb (String.eqb x "") && negb (String.eqb x "."))
    (PyStr.split "/" s).

Fixpoint leading_slashes (s : string) : nat :=
  match s with
  | String "/" s' => S (leading_slashes s')
  | _ => O
  end.

(** The root of an absolute path text: exactly two leading separators are
    kept, any other number is one. *)
Definition anchor (s : string) : string :=
  if Nat.eqb (leading_slashes s) 2 then "//" else "/".

(** [dir / name], as [pathlib] prints it, for [dir] the text of a path
    ([str(dir)]).  An absolute [name] replaces [dir]; otherwise the
    components of [name] are appended, so repeated separators and ["."]
    components of [name] disappear. *)
Definition join (dir name : string) : string :=
  let rel := String.concat "/" (components name) in
  if String.prefix "/" name then anchor name +:+ rel
  else
    match components name with
    | [] => dir
    | _ :: _ =>
        if String.eqb dir "." then rel
        else if String.eqb dir "/" || String.eqb dir "//" then dir +:+ rel
        else dir +:+ "/" +:+ rel
    end.

(** [p.name]: the final component. *)
Definition name (p : string) : string := PyStr.last_item (PyStr.split "/" p).

(** [p.parent], for a path with at least one separator. *)
Definition parent (p : string) : string :=
  String.substring 0 (String.length p - String.length (name p) - 1) p.

(** [p.stem] and [p.suffix]: the name is cut at its last dot when that
    dot is neither its first nor its last character. *)
Definition stem (p : string) : string :=
  let n := name p in
  match PyStr.rfind_dot n with
  | Some i =>
      if ((0 <? i) && (i <? String.length n - 1))%nat
      then String.substring 0 i n else n
  | None => n
  end.

Definition suffix (p : string) : string :=
  let n := name p in
  match PyStr.rfind_dot n with
  | Some i =>
      if ((0 <? i) && (i <? String.length n - 1))%nat
      then String.substring i (String.length n - i) n else ""
  | None => ""
  end.

End PyPath.

(** ** [datetime] dates *)

Module PyDate.

Record date : Set := mkdate { year : Z; month : Z; day : Z }.

#[global] Instance date_eq_dec : EqDecision date.
Proof. solve_decision. Defined.

Definition is_leap (y : Z) : bool :=
  (y mod 4 =? 0) && (negb (y mod 100 =? 0) || (y mod 400 =? 0)).

Definition days_in_month (y m : Z) : Z :=
  if m =? 2 then (if is_leap y then 29 else 28)
  else if (m =? 4) || (m =? 6) || (m =? 9) || (m =? 11) then 30
  else 31.

Definition days_before_year (y : Z) : Z :=
  let p := y - 1 in p * 365 + p / 4 - p / 100 + p / 400.

Definition days_before_month (y m : Z) : Z :=
  fold_right Z.add 0
    (map (fun k => days_in_month y (Z.of_nat k)) (seq 1 (Z.to_nat (m - 1)))).

(** [date.toordinal()]: 0001-01-01 is day 1. *)
Definition toordinal (d : date) : Z :=
  days_before_year (year d) + days_before_month (year d) (month d) + day d.

(** [date.weekday()]: Monday is 0, Sunday is 6. *)
Definition weekday (d : date) : Z := (toordinal d + 6) mod 7.

Definition is_digit (c : ascii) : bool :=
  let n := nat_of_ascii c in ((48 <=? n) && (n <=? 57))%nat.

Definition digit (c : ascii) : Z := Z.of_nat (nat_of_ascii c) - 48.

Definition in_range (lo hi : Z) (c : ascii) : bool :=
  is_digit c && (lo <=? digit c) && (digit c <=? hi).

(** The directive [%m] followed by the literal ["-"]:
    [1[0-2]|0[1-9]|[1-9]], alternatives tried in this order. *)
Definition parse_month (s : string) : option (Z * string) :=
  let two :=
    match s with
    | String a (String b (String "-" r)) =>
        if Ascii.eqb a "1" && in_range 0 2 b then Some (10 + digit b, r)
        else if Ascii.eqb a "0" && in_range 1 9 b then Some (digit b, r)
        else None
    | _ => None
    end in
  match two with
  | Some v => Some v
  | None =>
      match s with
      | String a (String "-" r) =>
          if in_range 1 9 a then Some (digit a, r) else None
      | _ => None
      end
  end.

(** The directive [%d] at the end of the format:
    [3[0-1]|[1-2]\d|0[1-9]|[1-9]| [1-9]], first alternative that matches;
    what it leaves unread is returned. *)
Definition parse_day (s : string) : option (Z * string) :=
  match s with
  | String a r =>
      let two :=
        match r with
        | String b r' =>
            if Ascii.eqb a "3" && in_range 0 1 b then Some (30 + digit b, r')
            else if in_range 1 2 a && is_digit b
                 then Some (10 * digit a + digit b, r')
            else if Ascii.eqb a "0" && in_range 1 9 b then Some (digit b, r')
            else None
        | EmptyString => None
        end in
      match two with
      | Some v => Some v
      | None =>
          if in_range 1 9 a then Some (digit a, r)
          else match r with
               | String b r' =>
                   if Ascii.eqb a " " && in_range 1 9 b
                   then Some (digit b, r') else None
               | EmptyString => None
               end
      end
  | EmptyString => None
  end.

(** [datetime.strptime(s, "%Y-%m-%d").date()], with [None] for
    [ValueError]: the text does not match, text is left over, or the
    fields do not name a day of the calendar (years run from 1). *)
Definition strptime_ymd (s : string) : option date :=
  match s with
  | String y1 (String y2 (String y3 (String y4 (String "-" r)))) =>
      if is_digit y1 && is_digit y2 && is_digit y3 && is_digit y4 then
        let y := 1000 * digit y1 + 100 * digit y2 + 10 * digit y3 + digit y4 in
        match parse_month r with
        | Some (m, r1) =>
            match parse_day r1 with
            | Some (d, EmptyString) =>
                if (1 <=? y) && (d <=? days_in_month y m)
                then Some (mkdate y m d) else None
            | _ => None
            end
        | None => None
        end
      else None
  | _ => None
  end.

End PyDate.

Export PyDate.

(** ** Configuration and the outside world *)

(** The module-level constants (lines 23-32) and the [--log] flag. *)
Record config : Type := {
  WEEKEND_DAYS : gset Z;
  TIMEOUT : Z;
  RAW_SAVED_DIR : string;
  NEPSE_URL : string;
  args_log : bool
}.

(** The values used when the environment sets none of them. *)
Definition default_config (project_root : string) : config := {|
  WEEKEND_DAYS := {[4; 5]};
  TIMEOUT := 60;
  RAW_SAVED_DIR := PyPath.join project_root "todays_price";
  NEPSE_URL := "https://www.nepalstock.com/today-price";
  args_log := false
|}.

(** A directory entry: full path, whether it is a regular file, and the
    calendar date of its modification time. *)
Record fentry : Set := { fpath : string; fregular : bool; fmtime : date }.

(** Error numbers of a failed [stat]. *)
Inductive errno : Set :=
| ENOENT | ENOTDIR | EBADF | ELOOP | ENAMETOOLONG | EACCES | EIO.

(** [pathlib._ignore_error]: the error numbers for which [is_file]
    answers [False]; every other [OSError] is raised again. *)
Definition ignored_errno (en : errno) : bool :=
  match en with
  | ENOENT | ENOTDIR | EBADF | ELOOP => true
  | _ => false
  end.

(** Everything outside the script.  Each answer may depend on what the
    script has done so far. *)
Record world : Type := {
  today : date;                                   (* datetime.today().date() *)
  clock0 : Z;                                     (* seconds at start *)
  lag : trace -> event -> Z;                      (* seconds an operation takes *)
  files : trace -> list fentry;                   (* the filesystem *)
  stat_fault : trace -> string -> option errno;   (* a stat that fails *)
  strptime_other : string -> option date;         (* text beyond ASCII *)
  set_first : trace -> list string -> nat;        (* iteration order of a set *)
  chrome_start : trace -> option exn;             (* webdriver.Chrome *)
  script_run : trace -> string -> option element -> option exn;
  page_load : trace -> string -> option exn;      (* driver.get *)
  clickable : trace -> string -> exn + element;   (* wait.until *)
  click : trace -> element -> option exn;
  quit : trace -> option exn;                     (* driver.quit *)
  pkill : trace -> exn + Z                        (* subprocess.run *)
}.

(** The object a module-level name is bound to.  Line 7,
    [from datetime import datetime, time], binds [time] to the class
    [datetime.time]; [import time] would bind it to the module. *)
Inductive time_object : Set := datetime_time_class | time_module.

Definition time_global : time_object := datetime_time_class.

Definition attributes_of (o : time_object) : list string :=
  match o with
  | datetime_time_class =>
      ["min"; "max"; "resolution"; "hour"; "minute"; "second"; "microsecond";
       "tzinfo"; "fold"; "replace"; "isoformat"; "fromisoformat"; "strftime";
       "utcoffset"; "dst"; "tzname"]
  | time_module =>
      ["time"; "sleep"; "monotonic"; "perf_counter"; "localtime"; "gmtime";
       "strftime"; "strptime"; "mktime"; "ctime"; "asctime"]
  end.

Local Open Scope py_scope.

Section Primitives.

Variable cfg : config.
Variable w : world.

(** [logging.basicConfig]: with [--log] the threshold is [INFO],
    without it [CRITICAL + 1], which lets no record through. *)
Definition threshold : Z := if args_log cfg then levelno INFO else CRITICAL + 1.

(** The events of one logging call: the record, when it passes. *)
Definition logged (l : level) (msg : string) : trace :=
  if threshold <=? levelno l then [EvLog l msg] else [].

Definition log (l : level) (msg : string) : M unit :=
  if threshold <=? levelno l then emit (EvLog l msg) else ret tt.

(** A logging call whose message has no placeholder for its argument
    (line 341): a record that passes the threshold cannot be formatted,
    and the handler reports that on the error stream without raising. *)
Definition log_unformattable (l : level) : M unit :=
  if threshold <=? levelno l then emit EvLoggingError else ret tt.

(** Seconds spent sleeping. *)
Definition slept (tr : trace) : Z :=
  fold_right Z.add 0
    (map (fun ev => match ev with EvSleep n => n | _ => 0 end) tr).

(** The seconds one operation takes: a sleep lasts at least as long as
    asked, and any operation may take the time the world says, never less
    than none. *)
Definition duration (done : trace) (ev : event) : Z :=
  match ev with EvSleep n => n | _ => 0 end + Z.max 0 (lag w done ev).

(** The seconds the operations of [rest] take when run after [done]. *)
Fixpoint elapsed (done rest : trace) : Z :=
  match rest with
  | [] => 0
  | ev :: rest' => duration done ev + elapsed (done ++ [ev]) rest'
  end.

(** The wall clock after the operations of [tr]. *)
Definition now (tr : trace) : Z := clock0 w + elapsed [] tr.

(** [time.time()] and [time.sleep(n)], through the name [time]. *)
Definition time_time (tm : time_object) : M Z :=
  getattr (attributes_of tm) "time";;
  tr <- history;;
  ret (now tr).

Definition time_sleep (tm : time_object) (seconds : Z) : M unit :=
  getattr (attributes_of tm) "sleep";;
  emit (EvSleep seconds).

(** Patterns of the shape ["*" ++ suf] match the names ending in [suf]. *)
Definition pattern_matches (pattern name : string) : bool :=
  match pattern with
  | String "*" suf => PyStr.endswith suf name
  | _ => String.eqb pattern name
  end.

Definition glob_in (fs : list fentry) (dir pattern : string) : list string :=
  map fpath
    (List.filter
       (fun e => String.eqb (PyPath.parent (fpath e)) dir
                 && pattern_matches pattern (PyPath.name (fpath e)))
       fs).

(** [Path(dir).glob(pattern)]. *)
Definition glob (dir pattern : string) : M (list string) :=
  tr <- history;;
  emit (EvGlob dir pattern);;
  ret (glob_in (files w tr) dir pattern).

Definition is_file_in (fs : list fentry) (p : string) : bool :=
  existsb (fun e => String.eqb (fpath e) p && fregular e) fs.

(** The character no path can hold: [os.stat] refuses it with
    [ValueError] before anything is asked of the filesystem. *)
Definition NUL : ascii := "000"%char.

(** [p.is_file()] as [pathlib] of Python 3.11 has it: [False] for a path
    that cannot be encoded and for a [stat] that fails with an ignored
    error number; any other [OSError] of the [stat] is raised. *)
Definition is_file (p : string) : M bool :=
  if PyStr.has_char NUL p then ret false
  else
    tr <- history;;
    emit (EvStat p);;
    match stat_fault w tr p with
    | Some en => if ignored_errno en then ret false else raise OSError
    | None => ret (is_file_in (files w tr) p)
    end.

(** [datetime.fromtimestamp(p.stat().st_mtime).date()]; a failed [stat]
    raises, whatever the error number. *)
Definition stat_mtime_date (p : string) : M date :=
  if PyStr.has_char NUL p then raise ValueError
  else
    tr <- history;;
    emit (EvStat p);;
    match stat_fault w tr p with
    | Some _ => raise OSError
    | None =>
        match List.find (fun e => String.eqb (fpath e) p) (files w tr) with
        | Some e => ret (fmtime e)
        | None => raise OSError
        end
    end.

(** An external call that either raises or returns nothing of interest. *)
Definition external (ev : event) (answer : trace -> option exn) : M unit :=
  tr <- history;;
  emit ev;;
  match answer tr with
  | Some e => raise e
  | None => ret tt
  end.

Definition chrome : M unit := external EvBrowserStart (chrome_start w).

Definition execute_script (script : string) (arg : option element) : M unit :=
  external (EvExecuteScript script arg) (fun tr => script_run w tr script arg).

Definition driver_get (url : string) : M unit :=
  external (EvGet url) (fun tr => page_load w tr url).

Definition wait_until_clickable (xpath : string) : M element :=
  tr <- history;;
  emit (EvWaitUntil xpath);;
  match clickable w tr xpath with
  | inl e => raise e
  | inr el => ret el
  end.

(** [download_link.click()]; [None] has no attribute [click]. *)
Definition link_click (download_link : option element) : M unit :=
  match download_link with
  | None => raise AttributeError
  | Some el => external (EvClick el) (fun tr => click w tr el)
  end.

Definition driver_quit : M unit := external EvQuit (quit w).

(** [subprocess.run(['pkill', '-f', 'chromedriver'], ...)]: the return
    code, or the exception raised when the command cannot be run. *)
Definition subprocess_run_pkill : M Z :=
  tr <- history;;
  emit EvPkill;;
  match pkill w tr with
  | inl e => raise e
  | inr code => ret code
  end.

(** A list comprehension [[x for x in l if cond(x)]]. *)
Fixpoint select_if {A} (cond : A -> M bool) (l : list A) : M (list A) :=
  match l with
  | [] => ret []
  | x :: xs =>
      b <- cond x;;
      rest <- select_if cond xs;;
      ret (if b : bool then x :: rest else rest)
  end.

(** [sorted(set(paths))]. *)
Definition sorted_set (paths : list string) : list string :=
  merge_sort (fun a b => Is_true (String.leb a b)) (remove_dups paths).

End Primitives.

(** ** class DownloadFile *)

Module DownloadFile.
Section DownloadFile.

Variable cfg : config.
Variable w : world.
(** The object the global name [time] refers to when a method runs. *)
Variable tm : time_object.

(** Lines 61-72. *)
Definition kill_chromedriver : M unit :=
  try_except
    (returncode <- subprocess_run_pkill w;;
     if returncode =? 0
     then log cfg INFO "Cleaned up chromedriver processes"
     else ret tt)
    (fun _ => ret tt).

(** The [while] loop of lines 79-94; [fuel] bounds its iterations. *)
Fixpoint poll (fuel : nat) (download_dir : string)
    (initial_files : gset string) (timeout start_time : Z)
    : M (option string) :=
  match fuel with
  | O => diverge
  | S fuel' =>
      t <- time_time w tm;;
      if t - start_time <? timeout then
        current_files <- glob w download_dir "*";;
        let new_files :=
          filter (fun f => f ∉ initial_files) (remove_dups current_files) in
        let new_csv_files :=
          filter (fun f => PyStr.lower (PyPath.suffix f) = ".csv") new_files in
        crdownload_files <- glob w download_dir "*.crdownload";;
        match new_csv_files, crdownload_files with
        | f :: _, [] =>
            (* [new_csv_files[0]]: the list follows the iteration order
               of the set [new_files] *)
            seen <- history;;
            ret (Some (List.nth
                         (set_first w seen new_csv_files
                          mod List.length new_csv_files)
                         new_csv_files f))
        | _, _ =>
            (match crdownload_files with
             | [] => ret tt
             | _ :: _ => log cfg INFO "Download in progress..."
             end);;
            time_sleep tm 1;;
            poll fuel' download_dir initial_files timeout start_time
        end
      else ret None
  end.

(** Lines 74-96. *)
Definition wait_for_download_complete (fuel : nat) (download_dir : string)
    (initial_files : gset string) (timeout : Z) : M (option string) :=
  start_time <- time_time w tm;;
  poll fuel download_dir initial_files timeout start_time.

(** Lines 98-127: the options are fixed; the call that can fail is the
    constructor [webdriver.Chrome]. *)
Definition setup_browser : M unit := chrome w.

Definition download_selectors : list string :=
  ["//a[contains(@class,'table__file') and contains(text(),'Download as CSV')]";
   "//a[contains(text(),'Download as CSV')]";
   "//a[contains(text(),'CSV')]";
   "//a[@class='table__file']";
   "//button[contains(text(),'Download as CSV')]";
   "//*[contains(text(),'Download') and contains(text(),'CSV')]"].

(** Lines 162-174: the first selector whose wait succeeds ends the loop;
    a failed one is logged and the next is tried; [download_link] keeps
    its value [None] when all fail. *)
Fixpoint locate (selectors : list string) (download_link : option element)
    : M (option element) :=
  match selectors with
  | [] => ret download_link
  | selector :: rest =>
      found <- try_except
                 (log cfg INFO "Trying selector";;
                  el <- wait_until_clickable w selector;;
                  log cfg INFO "Found download link with selector";;
                  ret (Some el))
                 (fun _ => log cfg ERROR "Selector failed";; ret None);;
      match found with
      | Some el => ret (Some el)
      | None => locate rest download_link
      end
  end.

(** The [try] suite, lines 140-233; its value is what it assigns to
    [downloaded_file]. *)
Definition attempt (fuel : nat) (download_dir : string)
    (initial_files : gset string) : M (option string) :=
  log cfg INFO "Driver started successfully";;
  log cfg INFO "Download directory";;
  log cfg INFO "Starting the process....";;
  log cfg INFO "Opening NEPSE 'Today's Price' page...";;
  driver_get w (NEPSE_URL cfg);;
  time_sleep tm 5;;
  download_link <- locate download_selectors None;;
  log cfg INFO "Clicking Download as CSV link...";;
  execute_script w "arguments[0].scrollIntoView(true);" download_link;;
  time_sleep tm 2;;
  try_except (link_click w download_link)
    (fun _ => log cfg WARNING "Regular click failed";;
              log cfg INFO "Try to uncomment workaround 3.");;
  log cfg INFO "Waiting for download to finish...";;
  downloaded_file <-
    wait_for_download_complete fuel download_dir initial_files (TIMEOUT cfg);;
  match downloaded_file with
  | Some _ =>
      log cfg INFO "CSV downloaded";;
      log cfg INFO "File location"
  | None =>
      log cfg ERROR "Download failed or timed out.";;
      glob w download_dir "*";;
      log cfg INFO "Files in download directory"
  end;;
  ret downloaded_file.

(** The [finally] suite, lines 240-260. *)
Definition cleanup : M unit :=
  try_except
    (log cfg INFO "Closing browser...";;
     driver_quit w;;
     log cfg INFO "Browser closed successfully")
    (fun _ => log cfg WARNING "Browser cleanup completed (some background processes may persist)");;
  time_sleep tm 2;;
  kill_chromedriver.

Definition stealth_script : string :=
  "Object.defineProperty(navigator, 'webdriver', {get: () => undefined})".

(** Lines 129-262.  The local [downloaded_file] is assigned only at the
    end of the [try] suite: [Some f] is the bound name, [None] the name
    still unbound when [return downloaded_file] reads it. *)
Definition download_todays_price (fuel : nat) : M (option string) :=
  setup_browser;;
  execute_script w stealth_script None;;
  listing <- glob w (RAW_SAVED_DIR cfg) "*";;
  let initial_files : gset string := list_to_set listing in
  let download_dir := RAW_SAVED_DIR cfg in
  binding <-
    try_finally
      (try_except
         (f <- attempt fuel download_dir initial_files;; ret (Some f))
         (fun _ => log cfg INFO "Error occurred";;
                   emit EvTraceback;;
                   ret None))
      cleanup;;
  match binding with
  | Some downloaded_file => ret downloaded_file
  | None => raise UnboundLocalError
  end.

End DownloadFile.
End DownloadFile.

(** ** class PriceFileManager *)

Module PriceFileManager.
Section PriceFileManager.

Variable cfg : config.
Variable w : world.

(** Line 271: [def is_file_modified_today(file_path: Path)]. *)
Definition is_file_modified_today_params : list string := ["file_path"].

Definition is_file_modified_today (file_path : string) : M bool :=
  modified <- stat_mtime_date w file_path;;
  ret (bool_decide (modified = today w)).

(** Line 275: [def is_file_from_today(file_path: Path)]. *)
Definition is_file_from_today_params : list string := ["file_path"].

Definition date_str_of (file_path : string) : string :=
  PyStr.last_item (PyStr.split " - " (PyPath.stem file_path)).

(** [datetime.strptime(date_str, "%Y-%m-%d").date()]: ASCII text is
    parsed by [strptime_ymd]; for text with other characters, among which
    [strptime] also accepts further decimal digits, the world answers. *)
Definition parse_date (date_str : string) : option date :=
  if PyStr.is_ascii date_str then strptime_ymd date_str
  else strptime_other w date_str.

Definition is_file_from_today (file_path : string) : M bool :=
  let date_str := date_str_of file_path in
  match parse_date date_str with
  | None => raise ValueError
  | Some file_creation_date =>
      ret (bool_decide (file_creation_date = today w))
  end.

Definition expected_filename (date_str : string) : string :=
  let suffix := "" in
  "Today's Price - " +:+ date_str +:+ suffix +:+ ".csv".

(** Lines 280-287. *)
Definition get_file_by_date (raw_dir date_str : string)
    : M (option string) :=
  let filename := expected_filename date_str in
  let filepath := PyPath.join raw_dir filename in
  exists_ <- is_file w filepath;;
  ret (if exists_ : bool then Some filepath else None).

(** Lines 289-293; [self.is_file_from_today(f)] is a call through the
    instance. *)
Definition get_todays_files (raw_dir : string) : M (list string) :=
  temp_save_dir <- glob w raw_dir "*.csv";;
  let existing_files := sorted_set temp_save_dir in
  select_if (call_bound is_file_from_today_params is_file_from_today)
    existing_files.

(** Lines 295-297. *)
Definition file_exists_for_date (raw_dir date_str : string) : M bool :=
  found <- get_file_by_date raw_dir date_str;;
  ret (bool_decide (found <> None)).

End PriceFileManager.
End PriceFileManager.

(** ** class MarketChecker *)

Module MarketChecker.
Section MarketChecker.

Variable cfg : config.
Variable w : world.

(** Lines 303-306. *)
Definition is_weekend : M bool :=
  ret (bool_decide (weekday (today w) ∈ WEEKEND_DAYS cfg)).

End MarketChecker.
End MarketChecker.

(** ** class PriceDataApp and the module's last two lines *)

Module PriceDataApp.
Section PriceDataApp.

Variable cfg : config.
Variable w : world.

(** What an instance answers to: the three attributes set by [__init__]
    and the two methods of the class. *)
Definition attributes : list string :=
  ["file_manager"; "market_checker"; "download_file";
   "download_todays_data"; "run"].

(** Lines 322-345.  Line 338 reads
    [self.download_filedownload_todays_price()]: the attribute is looked
    up on the instance before anything is called; the call that would
    follow is taken to be the retriever. *)
Definition download_todays_data (fuel : nat) : M bool :=
  weekend <- MarketChecker.is_weekend cfg w;;
  if weekend : bool then
    log cfg INFO "Weekend detected - market closed, skipping download";;
    ret true
  else
    todays_files <- PriceFileManager.get_todays_files w (RAW_SAVED_DIR cfg);;
    match todays_files with
    | raw_file :: _ =>
        log cfg INFO "File already downloaded today";;
        ret true
    | [] =>
        log cfg INFO "No file found for today. Starting download...";;
        getattr attributes "download_filedownload_todays_price";;
        raw_file <- DownloadFile.download_todays_price cfg w time_global fuel;;
        valid <-
          match raw_file with
          | None => ret false
          | Some f =>
              call_bound PriceFileManager.is_file_modified_today_params
                (PriceFileManager.is_file_modified_today w) f
          end;;
        if valid : bool then
          log_unformattable cfg INFO;;
          ret true
        else
          log cfg ERROR "Failed to download today's price file.";;
          ret false
    end.

(** Lines 347-358. *)
Definition run (fuel : nat) : M unit :=
  try_except
    (success <- download_todays_data fuel;;
     if success : bool
     then log cfg INFO "Task completed successfully"
     else log cfg ERROR "Something went wrong. Please check log")
    (fun _ => log cfg ERROR "An unexpected error occured!").

(** Lines 362-363: [app = PriceDataApp(); app.run()]. *)
Definition main (fuel : nat) : M unit := run fuel.

(** The interpreter's exit status: 0 when the module body runs to its
    end, 1 after the traceback of an uncaught exception, 130 when the
    process ends on an uncaught [KeyboardInterrupt]; none while the script
    is still running. *)
Definition exit_status (r : result unit) : option Z :=
  match r with
  | Ok _ => Some 0
  | Raise e => Some (if is_Exception e then 1 else 130)
  | OutOfFuel => None
  end.

End PriceDataApp.
End PriceDataApp.

(** ** Sample configurations and worlds *)

(** The failure of a [stat] that depends on the path alone: a component
    longer than 255 bytes is refused with [ENAMETOOLONG]. *)
Definition linux_stat_fault (p : string) : option errno :=
  if existsb (fun c => (255 <? String.length c)%nat) (PyStr.split "/" p)
  then Some ENAMETOOLONG else None.

Definition sample_config : config := default_config "/srv/nepse".

Definition verbose_config : config := {|
  WEEKEND_DAYS := {[4; 5]};
  TIMEOUT := 60;
  RAW_SAVED_DIR := "/srv/nepse/todays_price";
  NEPSE_URL := "https://www.nepalstock.com/today-price";
  args_log := true
|}.

(** A world in which the filesystem does not change and every browser and
    process call succeeds. *)
Definition calm_world (d : date) (fs : list fentry) : world := {|
  today := d;
  clock0 := 1716200000;
  lag := fun _ _ => 0;
  files := fun _ => fs;
  stat_fault := fun _ p => linux_stat_fault p;
  strptime_other := fun _ => None;
  set_first := fun _ _ => O;
  chrome_start := fun _ => None;
  script_run := fun _ _ _ => None;
  page_load := fun _ _ => None;
  clickable := fun _ _ => inr 7%nat;
  click := fun _ _ => None;
  quit := fun _ => None;
  pkill := fun _ => inr 1
|}.

(** The same world with a page on which no selector ever becomes
    clickable. *)
Definition no_link_world (d : date) (fs : list fentry) : world := {|
  today := d;
  clock0 := 1716200000;
  lag := fun _ _ => 0;
  files := fun _ => fs;
  stat_fault := fun _ p => linux_stat_fault p;
  strptime_other := fun _ => None;
  set_first := fun _ _ => O;
  chrome_start := fun _ => None;
  script_run := fun _ _ _ => None;
  page_load := fun _ _ => None;
  clickable := fun _ _ => inl TimeoutException;
  click := fun _ _ => None;
  quit := fun _ => None;
  pkill := fun _ => inr 1
|}.

(** A date string of 260 characters. *)
Definition overlong_date_str : string :=
  String.concat "" (List.repeat "2024-05-20" 26).

Definition artifact_2024_05_20 : fentry := {|
  fpath := "/srv/nepse/todays_price/Today's Price - 2024-05-20.csv";
  fregular := true;
  fmtime := mkdate 2024 5 20
|}.

Definition artifact_2024_05_21 : fentry := {|
  fpath := "/srv/nepse/todays_price/Today's Price - 2024-05-21.csv";
  fregular := true;
  fmtime := mkdate 2024 5 21
|}.

Definition foreign_csv : fentry := {|
  fpath := "/srv/nepse/todays_price/notes.csv";
  fregular := true;
  fmtime := mkdate 2024 5 17
|}.

(** ** Vocabulary of the statements *)

Section Vocabulary.

Variable cfg : config.
Variable w : world.

(** The new CSV files of one poll, in listing order. *)
Definition new_csv_files (init : gset string) (listing : list string)
    : list string :=
  filter (fun f => PyStr.lower (PyPath.suffix f) = ".csv")
    (filter (fun f => f ∉ init) (remove_dups listing)).

(** [new_csv_files[0]] for a list built from a set, whose iteration order
    the world fixes: one of its items. *)
Definition picked (seen : trace) (l : list string) : option string :=
  match l with
  | [] => None
  | f :: _ =>
      Some (List.nth (set_first w seen l mod List.length l) l f)
  end.

(** What one poll that does not return adds to the trace. *)
Definition poll_events (dir : string) (markers : list string) : trace :=
  [EvGlob dir "*"; EvGlob dir "*.crdownload"]
  ++ match markers with
     | [] => []
     | _ :: _ => logged cfg INFO "Download in progress..."
     end
  ++ [EvSleep 1].

(** What the [try] suite adds to the trace before it stops. *)
Definition attempt_events : trace :=
  logged cfg INFO "Driver started successfully"
  ++ logged cfg INFO "Download directory"
  ++ logged cfg INFO "Starting the process...."
  ++ logged cfg INFO "Opening NEPSE 'Today's Price' page..."
  ++ [EvGet (NEPSE_URL cfg)].

(** What the handler of line 235 adds. *)
Definition handler_events : trace :=
  logged cfg INFO "Error occurred" ++ [EvTraceback].

(** What the [finally] suite adds, given the answer of [driver.quit]. *)
Definition cleanup_events (answer : option exn) : trace :=
  logged cfg INFO "Closing browser..."
  ++ [EvQuit]
  ++ match answer with
     | None => logged cfg INFO "Browser closed successfully"
     | Some e =>
         if is_Exception e
         then logged cfg WARNING
                "Browser cleanup completed (some background processes may persist)"
         else []
     end.

(** The exception the [finally] suite ends with. *)
Definition cleanup_exception (answer : option exn) : exn :=
  match answer with
  | Some e => if is_Exception e then AttributeError else e
  | None => AttributeError
  end.

(** The trace once the session is up and the store is snapshotted. *)
Definition init_events : trace :=
  [EvBrowserStart; EvExecuteScript DownloadFile.stealth_script None;
   EvGlob (RAW_SAVED_DIR cfg) "*"].

(** The exception pending when the [try] suite stops. *)
Definition attempt_exception (tr : trace) : exn :=
  match page_load w
          (tr ++ logged cfg INFO "Driver started successfully"
              ++ logged cfg INFO "Download directory"
              ++ logged cfg INFO "Starting the process...."
              ++ logged cfg INFO "Opening NEPSE 'Today's Price' page...")
          (NEPSE_URL cfg) with
  | Some e => e
  | None => AttributeError
  end.

End Vocabulary.

(** A download in three stages, one second apart: nothing new; the CSV
    together with its partial-download marker; the CSV alone. *)
Definition transfer_files (tr : trace) : list fentry :=
  let csv := {| fpath := "/srv/nepse/todays_price/Today's Price - 2024-05-20.csv";
                fregular := true; fmtime := mkdate 2024 5 20 |} in
  let marker := {| fpath := "/srv/nepse/todays_price/Unconfirmed 4711.crdownload";
                   fregular := true; fmtime := mkdate 2024 5 20 |} in
  if slept tr <? 1 then [foreign_csv]
  else if slept tr <? 2 then [foreign_csv; csv; marker]
  else [foreign_csv; csv].

Definition transfer_world : world := {|
  today := mkdate 2024 5 20;
  clock0 := 1716200000;
  lag := fun _ _ => 0;
  files := transfer_files;
  stat_fault := fun _ p => linux_stat_fault p;
  strptime_other := fun _ => None;
  set_first := fun _ _ => O;
  chrome_start := fun _ => None;
  script_run := fun _ _ _ => None;
  page_load := fun _ _ => None;
  clickable := fun _ _ => inr 7%nat;
  click := fun _ _ => None;
  quit := fun _ => None;
  pkill := fun _ => inr 1
|}.

(** A page on which no selector matches and the scroll script, given no
    element, fails as a browser does on [null.scrollIntoView]. *)
Definition strict_page_world (d : date) (fs : list fentry) : world := {|
  today := d;
  clock0 := 1716200000;
  lag := fun _ _ => 0;
  files := fun _ => fs;
  stat_fault := fun _ p => linux_stat_fault p;
  strptime_other := fun _ => None;
  set_first := fun _ _ => O;
  chrome_start := fun _ => None;
  script_run := fun _ script arg =>
    match arg with
    | None =>
        if String.eqb script "arguments[0].scrollIntoView(true);"
        then Some JavascriptException else None
    | Some _ => None
    end;
  page_load := fun _ _ => None;
  clickable := fun _ _ => inl TimeoutException;
  click := fun _ _ => None;
  quit := fun _ => None;
  pkill := fun _ => inr 0
|}.

(** ** [strftime] and today's date string *)

Module PyStrftime.

(** The character of the last decimal digit of [k]. *)
Definition digit_char (k : Z) : ascii :=
  ascii_of_nat (Z.to_nat (48 + k mod 10)).

(** A field printed with two digits, as [%m] and [%d] are. *)
Definition two_digits (n : Z) : string :=
  String (digit_char (n / 10)) (String (digit_char n) "").

(** A year of four digits, as [%Y] prints it. *)
Definition four_digits (n : Z) : string :=
  String (digit_char (n / 1000)) (String (digit_char (n / 100)) (two_digits n)).

(** The text one directive stands for.  Years below 1000 are printed with
    or without leading zeros depending on the C library, and directives
    other than [%Y], [%m], [%d] and [%%] are not covered: [None]. *)
Definition directive (c : ascii) (d : date) : option string :=
  if Ascii.eqb c "Y" then
    (if 1000 <=? year d then Some (four_digits (year d)) else None)
  else if Ascii.eqb c "m" then Some (two_digits (month d))
  else if Ascii.eqb c "d" then Some (two_digits (day d))
  else if Ascii.eqb c "%" then Some "%"
  else None.

(** [d.strftime(format)] for formats made of the directives above and
    ordinary characters; [None] for a format outside that fragment. *)
Fixpoint strftime (format : string) (d : date) : option string :=
  match format with
  | EmptyString => Some EmptyString
  | String c rest =>
      if Ascii.eqb c "%" then
        match rest with
        | String k rest' =>
            match directive k d, strftime rest' d with
            | Some piece, Some tail => Some (piece +:+ tail)
            | _, _ => None
            end
        | EmptyString => None
        end
      else
        match strftime rest d with
        | Some tail => Some (String c tail)
        | None => None
        end
  end.

End PyStrftime.

(** The default of [DATE_FORMAT] (line 24). *)
Definition default_DATE_FORMAT : string := "%Y-%m-%d".

Section TodayString.

Variable DATE_FORMAT : string.
Variable w : world.

(** [MarketChecker.get_today_date_str], lines 308-311; [None] when
    [DATE_FORMAT] lies outside the fragment [strftime] covers. *)
Definition get_today_date_str : option string :=
  PyStrftime.strftime DATE_FORMAT (today w).

End TodayString.

(** ** Vocabulary of the further statements *)

(** A day of the calendar whose year has four digits. *)
Definition valid_date (d : date) : Prop :=
  1000 <= year d <= 9999
  /\ 1 <= month d <= 12
  /\ 1 <= day d <= days_in_month (year d) (month d).

(** [s] does not contain the character [c]. *)
Fixpoint free_of (c : ascii) (s : string) : bool :=
  match s with
  | EmptyString => true
  | String x s' => negb (Ascii.eqb x c) && free_of c s'
  end.

(** [s] consists of digits and hyphens. *)
Fixpoint date_text (s : string) : bool :=
  match s with
  | EmptyString => true
  | String x s' => (is_digit x || Ascii.eqb x "-") && date_text s'
  end.

Section SelectorVocabulary.

Variable cfg : config.

(** What one pass of the selector loop adds when the wait raises an
    exception the handler catches. *)
Definition failed_events (selector : string) : trace :=
  logged cfg INFO "Trying selector"
  ++ [EvWaitUntil selector]
  ++ logged cfg ERROR "Selector failed".

(** What the pass adds when the wait returns an element. *)
Definition found_events (selector : string) : trace :=
  logged cfg INFO "Trying selector"
  ++ [EvWaitUntil selector]
  ++ logged cfg INFO "Found download link with selector".

(** What the pass adds when the wait raises past the handler. *)
Definition interrupted_events (selector : string) : trace :=
  logged cfg INFO "Trying selector" ++ [EvWaitUntil selector].

(** What [kill_chromedriver] adds, given the answer of [pkill]. *)
Definition sweep_events (answer : exn + Z) : trace :=
  EvPkill
  :: match answer with
     | inr code =>
         if code =? 0
         then logged cfg INFO "Cleaned up chromedriver processes" else []
     | inl _ => []
     end.

End SelectorVocabulary.

(** Every wait on a selector of [failed] raises an exception that derives
    from [Exception], whenever it is asked. *)
Definition all_fail (w : world) (failed : list string) : Prop :=
  forall selector tr, selector ∈ failed ->
    exists e, clickable w tr selector = inl e /\ is_Exception e = true.

(** A world whose page answers each selector as [answer] says, with a
    static filesystem and no other failure. *)
Definition page_world (d : date) (fs : list fentry)
    (answer : string -> exn + element) : world := {|
  today := d;
  clock0 := 1716200000;
  lag := fun _ _ => 0;
  files := fun _ => fs;
  stat_fault := fun _ p => linux_stat_fault p;
  strptime_other := fun _ => None;
  set_first := fun _ _ => O;
  chrome_start := fun _ => None;
  script_run := fun _ _ _ => None;
  page_load := fun _ _ => None;
  clickable := fun _ xpath => answer xpath;
  click := fun _ _ => None;
  quit := fun _ => None;
  pkill := fun _ => inr 0
|}.

(** A page on which only the second selector of the list matches. *)
Definition second_selector_page (xpath : string) : exn + element :=
  if String.eqb xpath "//a[contains(text(),'Download as CSV')]"
  then inr 7%nat else inl TimeoutException.

(** A page on which the first selector fails and the wait on the second
    is interrupted from the keyboard. *)
Definition interrupted_page (xpath : string) : exn + element :=
  if String.eqb xpath "//a[contains(text(),'Download as CSV')]"
  then inl KeyboardInterrupt else inl TimeoutException.

(** A world in which the browser session cannot be started. *)
Definition no_chrome_world (d : date) (fs : list fentry) : world := {|
  today := d;
  clock0 := 1716200000;
  lag := fun _ _ => 0;
  files := fun _ => fs;
  stat_fault := fun _ p => linux_stat_fault p;
  strptime_other := fun _ => None;
  set_first := fun _ _ => O;
  chrome_start := fun _ => Some WebDriverException;
  script_run := fun _ _ _ => None;
  page_load := fun _ _ => None;
  clickable := fun _ _ => inr 7%nat;
  click := fun _ _ => None;
  quit := fun _ => None;
  pkill := fun _ => inr 0
|}.

(** A world in which the session starts and the first script fails. *)
Definition script_fails_world (d : date) (fs : list fentry) : world := {|
  today := d;
  clock0 := 1716200000;
  lag := fun _ _ => 0;
  files := fun _ => fs;
  stat_fault := fun _ p => linux_stat_fault p;
  strptime_other := fun _ => None;
  set_first := fun _ _ => O;
  chrome_start := fun _ => None;
  script_run := fun _ _ _ => Some JavascriptException;
  page_load := fun _ _ => None;
  clickable := fun _ _ => inr 7%nat;
  click := fun _ _ => None;
  quit := fun _ => None;
  pkill := fun _ => inr 0
|}.

(** A configuration that names Sunday by the index 7. *)
Definition sunday_as_seven_config : config := {|
  WEEKEND_DAYS := {[7]};
  TIMEOUT := 60;
  RAW_SAVED_DIR := "/srv/nepse/todays_price";
  NEPSE_URL := "https://www.nepalstock.com/today-price";
  args_log := false
|}.

(** A computation only ever appends to the trace. *)
Definition extends {A} (m : M A) : Prop :=
  forall tr r tr', m tr = (r, tr') -> exists added, tr' = tr ++ added.

(** ** The library fragments on examples *)

Example split_date_name :
  PyStr.split " - " "Today's Price - 2024-05-20" = ["Today's Price"; "2024-05-20"].
Proof. reflexivity. Qed.

Example split_no_overlap : PyStr.split " - " "a - - b" = ["a"; "- b"].
Proof. reflexivity. Qed.

Example stem_of_artifact :
  PyPath.stem "/data/todays_price/Today's Price - 2024-05-20.csv"
  = "Today's Price - 2024-05-20".
Proof. reflexivity. Qed.

Example suffix_upper : PyStr.lower (PyPath.suffix "/d/Prices.CSV") = ".csv".
Proof. reflexivity. Qed.

Example stem_hidden : PyPath.stem "/d/.csv" = ".csv".
Proof. reflexivity. Qed.

Example monday_2024_05_20 : weekday (mkdate 2024 5 20) = 0.
Proof. reflexivity. Qed.

Example friday_2024_05_24 : weekday (mkdate 2024 5 24) = 4.
Proof. reflexivity. Qed.

Example saturday_2000_01_01 : weekday (mkdate 2000 1 1) = 5.
Proof. reflexivity. Qed.

Example strptime_plain : strptime_ymd "2024-05-20" = Some (mkdate 2024 5 20).
Proof. reflexivity. Qed.

Example strptime_short_fields : strptime_ymd "2024-5-7" = Some (mkdate 2024 5 7).
Proof. reflexivity. Qed.

Example strptime_leap : strptime_ymd "2024-02-29" = Some (mkdate 2024 2 29).
Proof. reflexivity. Qed.

Example strptime_not_leap : strptime_ymd "2023-02-29" = None.
Proof. reflexivity. Qed.

Example strptime_leftover : strptime_ymd "2024-05-201" = None.
Proof. reflexivity. Qed.

Example strptime_month_13 : strptime_ymd "2024-13-01" = None.
Proof. reflexivity. Qed.

Example strptime_words : strptime_ymd "notes" = None.
Proof. reflexivity. Qed.

(** ** Running the monad *)

Section Runs.

Variable cfg : config.
Variable w : world.

Lemma run_bind_ok {A B} (m : M A) (k : A -> M B) tr a tr' :
  m tr = (Ok a, tr') -> bind m k tr = k a tr'.
Proof. intros H. unfold bind. now rewrite H. Qed.

Lemma run_bind_raise {A B} (m : M A) (k : A -> M B) tr e tr' :
  m tr = (Raise e, tr') -> bind m k tr = (Raise e, tr').
Proof. intros H. unfold bind. now rewrite H. Qed.

Lemma run_log l msg tr : log cfg l msg tr = (Ok tt, tr ++ logged cfg l msg).
Proof.
  unfold log, logged. destruct (threshold cfg <=? levelno l); cbn.
  - reflexivity.
  - now rewrite app_nil_r.
Qed.

Lemma run_getattr_missing attrs name tr :
  name ∉ attrs -> getattr attrs name tr = (Raise AttributeError, tr).
Proof.
  intros H. unfold getattr. rewrite bool_decide_eq_false_2 by exact H.
  reflexivity.
Qed.

Lemma time_not_on_datetime_time : "time" ∉ attributes_of time_global.
Proof. apply (bool_decide_unpack _). vm_compute. exact I. Qed.

Lemma sleep_not_on_datetime_time : "sleep" ∉ attributes_of time_global.
Proof. apply (bool_decide_unpack _). vm_compute. exact I. Qed.

Lemma run_time_time tr :
  time_time w time_global tr = (Raise AttributeError, tr).
Proof.
  unfold time_time. apply run_bind_raise, run_getattr_missing.
  exact time_not_on_datetime_time.
Qed.

Lemma run_time_sleep n tr :
  time_sleep time_global n tr = (Raise AttributeError, tr).
Proof.
  unfold time_sleep. apply run_bind_raise, run_getattr_missing.
  exact sleep_not_on_datetime_time.
Qed.

Lemma logged_not_filesystem l msg :
  Forall (fun ev => is_filesystem_event ev = false
                    /\ is_browser_event ev = false) (logged cfg l msg).
Proof.
  unfold logged. destruct (threshold cfg <=? levelno l); repeat constructor.
Qed.

End Runs.

(** ** The schedule gate on a non-trading day *)

(** C1.  On every date whose weekday index is in the configured set of
    non-trading days, [download_todays_data] returns [True] at once: the
    only thing it may add to the trace is its own log record, so the store
    directory is not listed, no file is examined and no browser call is
    made. *)
Theorem weekend_returns_true_without_store_or_browser
    (cfg : config) (w : world) (fuel : nat) (tr : trace) :
  weekday (today w) ∈ WEEKEND_DAYS cfg ->
  PriceDataApp.download_todays_data cfg w fuel tr
  = (Ok true,
     tr ++ logged cfg INFO "Weekend detected - market closed, skipping download")
  /\ Forall (fun ev => is_filesystem_event ev = false
                       /\ is_browser_event ev = false)
       (logged cfg INFO "Weekend detected - market closed, skipping download").
Proof.
  intros Hwk. split.
  - unfold PriceDataApp.download_todays_data, MarketChecker.is_weekend.
    unfold bind at 1. unfold ret at 1.
    rewrite bool_decide_eq_true_2 by exact Hwk.
    erewrite run_bind_ok by apply run_log.
    reflexivity.
  - apply logged_not_filesystem.
Qed.

Lemma weekend_returns_true_witness :
  weekday (today (calm_world (mkdate 2024 5 24) [])) ∈ WEEKEND_DAYS verbose_config
  /\ PriceDataApp.download_todays_data verbose_config
       (calm_world (mkdate 2024 5 24) []) 0 []
     = (Ok true,
        [EvLog INFO "Weekend detected - market closed, skipping download"]).
Proof.
  assert (H : weekday (today (calm_world (mkdate 2024 5 24) []))
              ∈ WEEKEND_DAYS verbose_config).
  { apply (bool_decide_unpack _). vm_compute. exact I. }
  split; [exact H|].
  exact (proj1 (weekend_returns_true_without_store_or_browser
                  verbose_config (calm_world (mkdate 2024 5 24) []) 0 [] H)).
Defined.

(** ** Looking an artifact up by its date string *)

Lemma expected_filename_eq date_str :
  PriceFileManager.expected_filename date_str
  = "Today's Price - " +:+ date_str +:+ ".csv".
Proof. reflexivity. Qed.

Lemma append_inj_l (a b c : string) : a +:+ b = a +:+ c -> b = c.
Proof.
  induction a as [|ch a IH]; cbn; intros H; [exact H|].
  injection H as H. exact (IH H).
Qed.

Lemma length_append (a b : string) :
  String.length (a +:+ b) = (String.length a + String.length b)%nat.
Proof.
  induction a as [|ch a IH]; [reflexivity|].
  change (S (String.length (a +:+ b))
          = S (String.length a + String.length b)).
  now rewrite IH.
Qed.

Lemma append_inj_r (a b c : string) : a +:+ c = b +:+ c -> a = b.
Proof.
  revert b. induction a as [|x a IH]; intros [|y b] H.
  - reflexivity.
  - exfalso. apply (f_equal String.length) in H.
    rewrite !length_append in H. cbn in H. lia.
  - exfalso. apply (f_equal String.length) in H.
    rewrite !length_append in H. cbn in H. lia.
  - change (String x (a +:+ c) = String y (b +:+ c)) in H.
    injection H as -> H. f_equal. exact (IH _ H).
Qed.

(** Different date strings name different files. *)
Lemma expected_filename_inj d1 d2 :
  PriceFileManager.expected_filename d1 = PriceFileManager.expected_filename d2
  -> d1 = d2.
Proof.
  rewrite !expected_filename_eq. intros H.
  apply append_inj_l in H. exact (append_inj_r _ _ _ H).
Qed.

(** ** Strings and paths *)

Lemma append_assoc (a b c : string) : (a +:+ b) +:+ c = a +:+ (b +:+ c).
Proof.
  induction a as [|x a IH]; [reflexivity|].
  change (String x ((a +:+ b) +:+ c) = String x (a +:+ (b +:+ c))).
  now rewrite IH.
Qed.

Lemma free_of_app c a b :
  free_of c (a +:+ b) = free_of c a && free_of c b.
Proof.
  induction a as [|x a IH]; [reflexivity|].
  change (negb (Ascii.eqb x c) && free_of c (a +:+ b)
          = negb (Ascii.eqb x c) && free_of c a && free_of c b).
  rewrite IH. now rewrite andb_assoc.
Qed.

Lemma free_of_date_text c s :
  date_text s = true -> is_digit c = false -> c <> "-"%char ->
  free_of c s = true.
Proof.
  intros Hs Hc Hh. induction s as [|x s IH]; [reflexivity|].
  cbn in Hs |- *. apply andb_true_iff in Hs as [Hx Hs].
  rewrite (IH Hs), andb_true_r. apply negb_true_iff.
  destruct (Ascii.eqb_spec x c) as [->|]; [|reflexivity].
  rewrite Hc in Hx. cbn in Hx. apply Ascii.eqb_eq in Hx. contradiction.
Qed.

Lemma split_from_nonempty sep skip cur s : PyStr.split_from sep skip cur s <> [].
Proof.
  revert skip cur. induction s as [|x s IH]; intros skip cur;
    cbn [PyStr.split_from].
  - intros H. discriminate H.
  - destruct skip; [|apply IH].
    destruct (String.prefix sep (String x s));
      [intros H; discriminate H|apply IH].
Qed.

Lemma last_cons_nonempty (x : string) l d :
  l <> [] -> List.last (x :: l) d = List.last l d.
Proof. destruct l; [congruence|reflexivity]. Qed.

(** A text without the first character of the separator is one piece. *)
Lemma split_from_free sep0 sep cur s :
  free_of sep0 s = true ->
  PyStr.split_from (String sep0 sep) 0 cur s = [cur +:+ s].
Proof.
  revert cur. induction s as [|x s IH]; intros cur Hs.
  - cbn. f_equal. induction cur as [|y cur IHc]; [reflexivity|].
    change (String y cur = String y (cur +:+ "")). now rewrite <- IHc.
  - cbn in Hs. apply andb_true_iff in Hs as [Hx Hs].
    apply negb_true_iff in Hx.
    cbn [PyStr.split_from String.prefix].
    destruct (ascii_dec sep0 x) as [->|Hne].
    + rewrite Ascii.eqb_refl in Hx. discriminate.
    + rewrite (IH _ Hs). f_equal. rewrite append_assoc. reflexivity.
Qed.

Lemma last_split_join dir f cur :
  free_of "/" f = true ->
  List.last (PyStr.split_from "/" 0 cur (dir +:+ "/" +:+ f)) EmptyString = f.
Proof.
  intros Hf. revert cur. induction dir as [|x dir IH]; intros cur.
  - change (List.last (PyStr.split_from "/" 0 cur (String "/" f)) EmptyString
            = f).
    cbn [PyStr.split_from String.prefix].
    destruct (ascii_dec "/" "/") as [_|Hne]; [|congruence].
    replace (String.prefix "" f) with true by now destruct f.
    cbn [String.length Nat.sub].
    rewrite (split_from_free "/" "" "" f Hf). reflexivity.
  - change (List.last
              (PyStr.split_from "/" 0 cur (String x (dir +:+ "/" +:+ f)))
              EmptyString
            = f).
    cbn [PyStr.split_from].
    destruct (String.prefix "/" (String x (dir +:+ "/" +:+ f))).
    + cbn [String.length Nat.sub].
      rewrite last_cons_nonempty by apply split_from_nonempty. apply IH.
    + apply IH.
Qed.

Lemma append_empty_r (a : string) : a +:+ "" = a.
Proof.
  induction a as [|x a IH]; [reflexivity|].
  change (String x (a +:+ "") = String x a). now rewrite IH.
Qed.

Lemma prefix_slash_free f : free_of "/" f = true -> String.prefix "/" f = false.
Proof.
  destruct f as [|x f]; [reflexivity|]. cbn [free_of String.prefix].
  intros H. apply andb_true_iff in H as [Hx _]. apply negb_true_iff in Hx.
  destruct (ascii_dec "/" x) as [<-|]; [|reflexivity].
  rewrite Ascii.eqb_refl in Hx. discriminate.
Qed.

(** A name without separator, neither empty nor ["."], is its own only
    component. *)
Lemma components_plain f :
  free_of "/" f = true -> f <> EmptyString -> f <> "."%string ->
  PyPath.components f = [f].
Proof.
  intros Hf Hne Hdot. unfold PyPath.components, PyStr.split.
  rewrite (split_from_free "/" "" "" f Hf).
  change ("" +:+ f) with f. cbn [List.filter].
  destruct (String.eqb_spec f "") as [->|_]; [congruence|].
  destruct (String.eqb_spec f ".") as [->|_]; [congruence|].
  reflexivity.
Qed.

(** [dir / f] for such a name: [f] is appended after one separator, or
    directly when [dir] is a root, and stands alone when [dir] is ["."]. *)
Lemma join_plain dir f :
  free_of "/" f = true -> f <> EmptyString -> f <> "."%string ->
  PyPath.join dir f
  = if String.eqb dir "." then f
    else if String.eqb dir "/" || String.eqb dir "//" then dir +:+ f
    else dir +:+ "/" +:+ f.
Proof.
  intros Hf Hne Hdot. unfold PyPath.join.
  rewrite (prefix_slash_free f Hf), (components_plain f Hf Hne Hdot).
  reflexivity.
Qed.

Lemma name_plain f :
  free_of "/" f = true -> PyPath.name f = f.
Proof.
  intros Hf. unfold PyPath.name, PyStr.last_item, PyStr.split.
  now rewrite (split_from_free "/" "" "" f Hf).
Qed.

(** The name of [dir / f] is [f]. *)
Lemma name_join dir f :
  free_of "/" f = true -> f <> EmptyString -> f <> "."%string ->
  PyPath.name (PyPath.join dir f) = f.
Proof.
  intros Hf Hne Hdot. rewrite (join_plain dir f Hf Hne Hdot).
  destruct (String.eqb_spec dir ".") as [_|_]; [now apply name_plain|].
  destruct (String.eqb_spec dir "/") as [->|_].
  { unfold PyPath.name, PyStr.last_item, PyStr.split.
    exact (last_split_join "" f "" Hf). }
  destruct (String.eqb_spec dir "//") as [->|_].
  { unfold PyPath.name, PyStr.last_item, PyStr.split.
    exact (last_split_join "/" f "" Hf). }
  cbn [orb]. unfold PyPath.name, PyStr.last_item, PyStr.split.
  now apply last_split_join.
Qed.

Lemma rfind_dot_from_csv i found base :
  free_of "." base = true ->
  PyStr.rfind_dot_from i found (base +:+ ".csv")
  = Some (i + String.length base)%nat.
Proof.
  revert i found. induction base as [|x base IH]; intros i found Hb.
  - change (PyStr.rfind_dot_from i found ".csv" = Some (i + 0)%nat).
    cbn. f_equal. lia.
  - cbn in Hb. apply andb_true_iff in Hb as [Hx Hb].
    apply negb_true_iff in Hx.
    change (PyStr.rfind_dot_from (S i)
              (if Ascii.eqb x "." then Some i else found) (base +:+ ".csv")
            = Some (i + S (String.length base))%nat).
    rewrite (IH _ _ Hb). f_equal. lia.
Qed.

Lemma substring_prefix a b :
  String.substring 0 (String.length a) (a +:+ b) = a.
Proof.
  induction a as [|x a IH]; [now destruct b|].
  change (String x (String.substring 0 (String.length a) (a +:+ b))
          = String x a).
  now rewrite IH.
Qed.

(** The stem of [base.csv] is [base] when [base] has no dot. *)
Lemma stem_csv base :
  free_of "." base = true -> base <> EmptyString ->
  match PyStr.rfind_dot (base +:+ ".csv") with
  | Some i =>
      if ((0 <? i) && (i <? String.length (base +:+ ".csv") - 1))%nat
      then String.substring 0 i (base +:+ ".csv") else base +:+ ".csv"
  | None => base +:+ ".csv"
  end = base.
Proof.
  intros Hb Hne. unfold PyStr.rfind_dot.
  rewrite (rfind_dot_from_csv 0 None base Hb). cbn [Nat.add].
  rewrite length_append.
  replace ((0 <? String.length base)%nat) with true.
  2:{ symmetry. apply Nat.ltb_lt. destruct base; [congruence|cbn; lia]. }
  replace ((String.length base <? String.length base + String.length ".csv" - 1)%nat)
    with true by (symmetry; apply Nat.ltb_lt; cbn; lia).
  cbn [andb]. apply substring_prefix.
Qed.

Lemma is_file_in_spec fs p :
  is_file_in fs p = true
  <-> exists e, e ∈ fs /\ fpath e = p /\ fregular e = true.
Proof.
  unfold is_file_in. rewrite existsb_exists. split.
  - intros (e & Hin & Hb). apply andb_true_iff in Hb as [Hp Hr].
    exists e. rewrite list_elem_of_In. apply String.eqb_eq in Hp. auto.
  - intros (e & Hin & Hp & Hr). exists e. rewrite <- list_elem_of_In.
    split; [exact Hin|]. apply andb_true_iff. split; [|exact Hr].
    now apply String.eqb_eq.
Qed.

Lemma run_is_file w p tr :
  is_file w p tr
  = if PyStr.has_char NUL p then (Ok false, tr)
    else
      (match stat_fault w tr p with
       | Some en => if ignored_errno en then Ok false else Raise OSError
       | None => Ok (is_file_in (files w tr) p)
       end,
       tr ++ [EvStat p]).
Proof.
  unfold is_file. destruct (PyStr.has_char NUL p); [reflexivity|].
  unfold bind, history, emit.
  destruct (stat_fault w tr p) as [en|]; [destruct (ignored_errno en)|];
    reflexivity.
Qed.

Lemma expected_filename_plain date_str :
  free_of "/" date_str = true ->
  free_of "/" (PriceFileManager.expected_filename date_str) = true
  /\ PriceFileManager.expected_filename date_str <> EmptyString
  /\ PriceFileManager.expected_filename date_str <> "."%string.
Proof.
  intros Hd. rewrite expected_filename_eq. split; [|split].
  - rewrite !free_of_app, Hd. reflexivity.
  - discriminate.
  - discriminate.
Qed.

(** C9 as stated fails: for a date string of 260 characters the file
    name is longer than a directory entry can be, the [stat] fails with
    [ENAMETOOLONG], and [is_file] raises that [OSError] again: the lookup
    ends with an exception, not with an empty result. *)
Lemma overlong_date_string_raises :
  fst (PriceFileManager.get_file_by_date (calm_world (mkdate 2024 5 20) [])
         "/srv/nepse/todays_price" overlong_date_str [])
  = Raise OSError
  /\ ~ (exists found tr',
          PriceFileManager.get_file_by_date (calm_world (mkdate 2024 5 20) [])
            "/srv/nepse/todays_price" overlong_date_str []
          = (Ok found, tr')).
Proof.
  assert (H : fst (PriceFileManager.get_file_by_date
                     (calm_world (mkdate 2024 5 20) [])
                     "/srv/nepse/todays_price" overlong_date_str [])
              = Raise OSError) by (vm_compute; reflexivity).
  split; [exact H|].
  intros (found & tr' & Hf). rewrite Hf in H. discriminate.
Qed.

(** C9 amended.  For every date string [get_file_by_date] builds one path,
    the store directory joined with ["Today's Price - <date>.csv"]; for a
    date string without separator in an ordinary store directory that is
    the directory, one separator and the file name.  A path that cannot be
    encoded gives [None] without a [stat].  Otherwise the path is examined
    once: a [stat] that fails with [ENOENT], [ENOTDIR], [EBADF] or [ELOOP]
    gives [None]; one that fails otherwise raises [OSError]; one that
    succeeds gives the path exactly when it is a regular file, and [None]
    exactly when it is not.  [file_exists_for_date] is the truth value of
    the same lookup and raises when it raises. *)
Theorem get_file_by_date_stats_the_expected_path
    (w : world) (raw_dir date_str : string) (tr : trace) :
  let expected :=
    PyPath.join raw_dir (PriceFileManager.expected_filename date_str) in
  let present :=
    exists e, e ∈ files w tr /\ fpath e = expected /\ fregular e = true in
  let lookup := PriceFileManager.get_file_by_date w raw_dir date_str tr in
  (free_of "/" date_str = true ->
   raw_dir <> "."%string -> raw_dir <> "/"%string -> raw_dir <> "//"%string ->
   expected = raw_dir +:+ "/Today's Price - " +:+ date_str +:+ ".csv")
  /\ (PyStr.has_char NUL expected = true -> lookup = (Ok None, tr))
  /\ (PyStr.has_char NUL expected = false ->
       forall en, stat_fault w tr expected = Some en ->
       lookup
       = (if ignored_errno en then Ok None else Raise OSError,
          tr ++ [EvStat expected]))
  /\ (PyStr.has_char NUL expected = false ->
       stat_fault w tr expected = None ->
       exists found : option string,
         lookup = (Ok found, tr ++ [EvStat expected])
         /\ (found = Some expected <-> present)
         /\ (found = None <-> ~ present))
  /\ PriceFileManager.file_exists_for_date w raw_dir date_str tr
      = (match fst lookup with
         | Ok found => Ok (bool_decide (found <> None))
         | Raise e => Raise e
         | OutOfFuel => OutOfFuel
         end,
         snd lookup).
Proof.
  intros expected present lookup.
  assert (Hrun : lookup
                 = if PyStr.has_char NUL expected then (Ok None, tr)
                   else
                     (match stat_fault w tr expected with
                      | Some en =>
                          if ignored_errno en then Ok None else Raise OSError
                      | None =>
                          Ok (if is_file_in (files w tr) expected
                              then Some expected else None)
                      end,
                      tr ++ [EvStat expected])).
  { subst lookup. unfold PriceFileManager.get_file_by_date.
    fold expected. unfold bind. rewrite run_is_file.
    destruct (PyStr.has_char NUL expected); [reflexivity|].
    destruct (stat_fault w tr expected) as [en|];
      [destruct (ignored_errno en)|]; reflexivity. }
  split; [|split; [|split; [|split]]].
  - intros Hd H1 H2 H3. subst expected.
    destruct (expected_filename_plain date_str Hd) as (Hf & Hne & Hdot).
    rewrite (join_plain raw_dir _ Hf Hne Hdot).
    destruct (String.eqb_spec raw_dir ".") as [->|_]; [congruence|].
    destruct (String.eqb_spec raw_dir "/") as [->|_]; [congruence|].
    destruct (String.eqb_spec raw_dir "//") as [->|_]; [congruence|].
    cbn [orb]. rewrite expected_filename_eq. reflexivity.
  - intros Hn. rewrite Hrun, Hn. reflexivity.
  - intros Hn en Hen. rewrite Hrun, Hn, Hen.
    now destruct (ignored_errno en).
  - intros Hn Hok. rewrite Hrun, Hn, Hok.
    pose proof (is_file_in_spec (files w tr) expected) as Hspec.
    fold present in Hspec.
    exists (if is_file_in (files w tr) expected then Some expected else None).
    split; [reflexivity|].
    destruct (is_file_in (files w tr) expected).
    + assert (Hp : present) by now apply Hspec.
      split; [tauto|]. split; [discriminate|tauto].
    + assert (Hp : ~ present).
      { intros Hp. apply Hspec in Hp. discriminate. }
      split; [split; [discriminate|tauto]|tauto].
  - unfold PriceFileManager.file_exists_for_date. fold lookup.
    unfold bind. fold lookup. destruct lookup as [[found|e|] tr']; reflexivity.
Qed.

Lemma get_file_by_date_stats_the_expected_path_witness :
  PyPath.join "/srv/nepse/todays_price"
    (PriceFileManager.expected_filename "2024-05-20")
  = "/srv/nepse/todays_price" +:+ "/Today's Price - " +:+ "2024-05-20" +:+ ".csv"
  /\ exists found : option string,
       PriceFileManager.get_file_by_date
         (calm_world (mkdate 2024 5 20) [artifact_2024_05_20])
         "/srv/nepse/todays_price" "2024-05-20" []
       = (Ok found,
          [] ++ [EvStat (PyPath.join "/srv/nepse/todays_price"
                           (PriceFileManager.expected_filename "2024-05-20"))])
       /\ (found = Some (PyPath.join "/srv/nepse/todays_price"
                           (PriceFileManager.expected_filename "2024-05-20"))
           <-> exists e, e ∈ [artifact_2024_05_20]
                 /\ fpath e = PyPath.join "/srv/nepse/todays_price"
                                 (PriceFileManager.expected_filename "2024-05-20")
                 /\ fregular e = true).
Proof.
  pose proof (get_file_by_date_stats_the_expected_path
                (calm_world (mkdate 2024 5 20) [artifact_2024_05_20])
                "/srv/nepse/todays_price" "2024-05-20" []) as H.
  cbv zeta in H. destruct H as (Hpath & _ & _ & Hok & _).
  split.
  - apply Hpath; [reflexivity|discriminate|discriminate|discriminate].
  - destruct (Hok eq_refl eq_refl) as (found & Hrun & Hsome & _).
    exists found. split; [exact Hrun|exact Hsome].
Defined.

(** Two date strings that differ only in repeated separators name one
    path. *)
Example get_file_by_date_collapses_separators :
  PyPath.join "/srv/nepse/todays_price"
    (PriceFileManager.expected_filename "x//2024-05-20")
  = PyPath.join "/srv/nepse/todays_price"
      (PriceFileManager.expected_filename "x/2024-05-20")
  /\ PyPath.join "/srv/nepse/todays_price"
       (PriceFileManager.expected_filename "x/./2024-05-20")
     = "/srv/nepse/todays_price/Today's Price - x/2024-05-20.csv".
Proof. split; reflexivity. Qed.

Example get_file_by_date_present :
  PriceFileManager.get_file_by_date
    (calm_world (mkdate 2024 5 20) [artifact_2024_05_20; foreign_csv])
    "/srv/nepse/todays_price" "2024-05-20" []
  = (Ok (Some "/srv/nepse/todays_price/Today's Price - 2024-05-20.csv"),
     [EvStat "/srv/nepse/todays_price/Today's Price - 2024-05-20.csv"]).
Proof. reflexivity. Qed.

Example get_file_by_date_absent :
  PriceFileManager.get_file_by_date
    (calm_world (mkdate 2024 5 21) [artifact_2024_05_20; foreign_csv])
    "/srv/nepse/todays_price" "2024-05-21" []
  = (Ok None,
     [EvStat "/srv/nepse/todays_price/Today's Price - 2024-05-21.csv"]).
Proof. reflexivity. Qed.

Example file_exists_for_date_text :
  PriceFileManager.file_exists_for_date
    (calm_world (mkdate 2024 5 21) [artifact_2024_05_20; foreign_csv])
    "/srv/nepse/todays_price" "yesterday" []
  = (Ok false,
     [EvStat "/srv/nepse/todays_price/Today's Price - yesterday.csv"]).
Proof. reflexivity. Qed.

(** ** The polling loop *)

Section Polling.

Variable cfg : config.
Variable w : world.

Lemma run_glob dir pattern tr :
  glob w dir pattern tr
  = (Ok (glob_in (files w tr) dir pattern), tr ++ [EvGlob dir pattern]).
Proof. reflexivity. Qed.

Lemma run_time_time_module tr :
  time_time w time_module tr = (Ok (now w tr), tr).
Proof. reflexivity. Qed.

Lemma run_time_sleep_module n tr :
  time_sleep time_module n tr = (Ok tt, tr ++ [EvSleep n]).
Proof. reflexivity. Qed.

(** One iteration of the loop when [time] is the module [time]. *)
Lemma poll_step fuel dir init timeout start tr :
  DownloadFile.poll cfg w time_module (S fuel) dir init timeout start tr
  = if now w tr - start <? timeout then
      let markers :=
        glob_in (files w (tr ++ [EvGlob dir "*"])) dir "*.crdownload" in
      match new_csv_files init (glob_in (files w tr) dir "*"), markers with
      | _ :: _, [] =>
          (Ok (picked w (tr ++ [EvGlob dir "*"; EvGlob dir "*.crdownload"])
                 (new_csv_files init (glob_in (files w tr) dir "*"))),
           tr ++ [EvGlob dir "*"; EvGlob dir "*.crdownload"])
      | _, _ =>
          DownloadFile.poll cfg w time_module fuel dir init timeout start
            (tr ++ poll_events cfg dir markers)
      end
    else (Ok None, tr).
Proof.
  cbn [DownloadFile.poll].
  erewrite run_bind_ok by apply run_time_time_module.
  destruct (now w tr - start <? timeout); [|reflexivity].
  erewrite run_bind_ok by apply run_glob.
  erewrite run_bind_ok by apply run_glob.
  fold (new_csv_files init (glob_in (files w tr) dir "*")).
  cbv zeta. unfold poll_events.
  set (markers := glob_in (files w (tr ++ [EvGlob dir "*"])) dir "*.crdownload").
  assert (Hrest : forall tr0,
    ((match markers with
      | [] => ret tt
      | _ :: _ => log cfg INFO "Download in progress..."
      end);;
     time_sleep time_module 1;;
     DownloadFile.poll cfg w time_module fuel dir init timeout start) tr0
    = DownloadFile.poll cfg w time_module fuel dir init timeout start
        (tr0 ++ match markers with
                | [] => []
                | _ :: _ => logged cfg INFO "Download in progress..."
                end ++ [EvSleep 1])).
  { intros tr0. destruct markers.
    - erewrite run_bind_ok by reflexivity.
      erewrite run_bind_ok by apply run_time_sleep_module. reflexivity.
    - erewrite run_bind_ok by apply run_log.
      erewrite run_bind_ok by apply run_time_sleep_module.
      now rewrite <- app_assoc. }
  destruct (new_csv_files init (glob_in (files w tr) dir "*")) as [|f fs].
  - rewrite Hrest. now rewrite <- !app_assoc.
  - destruct markers as [|m ms] eqn:Em.
    + unfold bind, history, ret, picked. now rewrite <- !app_assoc.
    + rewrite Hrest. now rewrite <- !app_assoc.
Qed.

Lemma picked_elem seen l f : picked w seen l = Some f -> f ∈ l.
Proof.
  destruct l as [|g l]; [discriminate|]. unfold picked.
  pose proof (Nat.mod_upper_bound (set_first w seen (g :: l))
                (List.length (g :: l)) ltac:(discriminate)) as Hlt.
  revert Hlt. generalize (set_first w seen (g :: l) mod List.length (g :: l))%nat.
  intros i Hlt H.
  pose proof (nth_In (g :: l) g Hlt) as Hin.
  assert (Hf : f = List.nth i (g :: l) g) by congruence.
  rewrite Hf. apply list_elem_of_In. exact Hin.
Qed.

Lemma duration_sleep done n : n <= duration w done (EvSleep n).
Proof. unfold duration. lia. Qed.

Lemma elapsed_app done a b :
  elapsed w done (a ++ b) = elapsed w done a + elapsed w (done ++ a) b.
Proof.
  revert done. induction a as [|ev a IH]; intros done.
  - cbn. now rewrite app_nil_r.
  - cbn [app elapsed]. rewrite IH, <- app_assoc. cbn [app]. lia.
Qed.

Lemma now_app tr added : now w (tr ++ added) = now w tr + elapsed w tr added.
Proof. unfold now. rewrite elapsed_app. cbn [app]. lia. Qed.

Lemma elapsed_logged done l msg : 0 <= elapsed w done (logged cfg l msg).
Proof.
  unfold logged. destruct (threshold cfg <=? levelno l); cbn; [|lia].
  unfold duration. lia.
Qed.

(** A poll that does not return takes a second at least. *)
Lemma elapsed_poll_events done dir markers :
  1 <= elapsed w done (poll_events cfg dir markers).
Proof.
  unfold poll_events. rewrite !elapsed_app.
  assert (H1 : 0 <= elapsed w done
                      [EvGlob dir "*"; EvGlob dir "*.crdownload"]).
  { cbn. unfold duration. lia. }
  assert (H3 : forall d, 1 <= elapsed w d [EvSleep 1]).
  { intros d. cbn. unfold duration. lia. }
  destruct markers as [|m ms].
  - specialize (H3 ((done ++ [EvGlob dir "*"; EvGlob dir "*.crdownload"])
                    ++ [])).
    change (elapsed w (done ++ [EvGlob dir "*"; EvGlob dir "*.crdownload"]) [])
      with 0.
    lia.
  - pose proof (elapsed_logged
                  (done ++ [EvGlob dir "*"; EvGlob dir "*.crdownload"])
                  INFO "Download in progress...") as H2.
    specialize (H3 ((done ++ [EvGlob dir "*"; EvGlob dir "*.crdownload"])
                    ++ logged cfg INFO "Download in progress...")).
    lia.
Qed.

Lemma new_csv_files_spec init listing f :
  f ∈ new_csv_files init listing
  <-> f ∈ listing /\ (f ∉ init) /\ PyStr.lower (PyPath.suffix f) = ".csv".
Proof.
  unfold new_csv_files.
  rewrite !list_elem_of_filter, elem_of_remove_dups. tauto.
Qed.

(** With [time] bound to the module, a file is handed back only by a poll
    whose marker listing is empty: the file is a CSV that the listing of
    that poll shows and the initial snapshot does not. *)
Lemma poll_accepts_only_without_marker fuel dir init timeout start tr f tr' :
  DownloadFile.poll cfg w time_module fuel dir init timeout start tr
  = (Ok (Some f), tr') ->
  exists tr1,
    tr' = tr1 ++ [EvGlob dir "*"; EvGlob dir "*.crdownload"]
    /\ glob_in (files w (tr1 ++ [EvGlob dir "*"])) dir "*.crdownload" = []
    /\ f ∈ glob_in (files w tr1) dir "*"
    /\ (f ∉ init)
    /\ PyStr.lower (PyPath.suffix f) = ".csv".
Proof.
  revert tr. induction fuel as [|fuel IH]; intros tr H; [discriminate|].
  rewrite poll_step in H.
  destruct (now w tr - start <? timeout); [|discriminate].
  cbv zeta in H.
  destruct (new_csv_files init (glob_in (files w tr) dir "*"))
    as [|g gs] eqn:Ecsv.
  - exact (IH _ H).
  - destruct (glob_in (files w (tr ++ [EvGlob dir "*"])) dir "*.crdownload")
      as [|m ms] eqn:Em.
    + assert (Hpick : picked w (tr ++ [EvGlob dir "*"; EvGlob dir "*.crdownload"])
                        (g :: gs) = Some f) by congruence.
      assert (Htr : tr' = tr ++ [EvGlob dir "*"; EvGlob dir "*.crdownload"])
        by congruence.
      exists tr.
      assert (Hin : f ∈ new_csv_files init (glob_in (files w tr) dir "*")).
      { rewrite Ecsv. exact (picked_elem _ _ _ Hpick). }
      apply new_csv_files_spec in Hin. tauto.
    + exact (IH _ H).
Qed.

(** With [time] bound to the module, [None] is returned only once the
    timeout has elapsed. *)
Lemma poll_none_only_after_timeout fuel dir init timeout start tr tr' :
  DownloadFile.poll cfg w time_module fuel dir init timeout start tr
  = (Ok None, tr') ->
  timeout <= now w tr' - start.
Proof.
  revert tr. induction fuel as [|fuel IH]; intros tr H; [discriminate|].
  rewrite poll_step in H.
  destruct (now w tr - start <? timeout) eqn:Eg.
  - cbv zeta in H.
    destruct (new_csv_files init (glob_in (files w tr) dir "*")) as [|g gs].
    + exact (IH _ H).
    + destruct (glob_in (files w (tr ++ [EvGlob dir "*"])) dir "*.crdownload").
      * discriminate.
      * exact (IH _ H).
  - injection H as <-. lia.
Qed.

(** With [time] bound to the module the loop ends: every poll that does
    not return sleeps one second, so [timeout] seconds after [start] the
    guard is false. *)
Lemma poll_terminates fuel dir init timeout start tr :
  (Z.to_nat (timeout - (now w tr - start)) < fuel)%nat ->
  exists r tr',
    DownloadFile.poll cfg w time_module fuel dir init timeout start tr
    = (Ok r, tr').
Proof.
  revert tr. induction fuel as [|fuel IH]; intros tr Hfuel; [lia|].
  rewrite poll_step.
  destruct (now w tr - start <? timeout) eqn:Eg; [|eauto].
  apply Z.ltb_lt in Eg. cbv zeta.
  assert (Hnext : forall markers,
    (Z.to_nat (timeout - (now w (tr ++ poll_events cfg dir markers) - start))
     < fuel)%nat).
  { intros markers. rewrite now_app.
    pose proof (elapsed_poll_events tr dir markers). lia. }
  destruct (new_csv_files init (glob_in (files w tr) dir "*")) as [|g gs].
  - apply IH, Hnext.
  - destruct (glob_in (files w (tr ++ [EvGlob dir "*"])) dir "*.crdownload")
      eqn:Em.
    + eauto.
    + apply IH, Hnext.
Qed.

End Polling.

(** With [time] bound to the module, the three-stage download is accepted
    in the third poll, after the marker has gone. *)
Example module_time_accepts_after_marker :
  DownloadFile.wait_for_download_complete sample_config transfer_world
    time_module 100 "/srv/nepse/todays_price"
    {["/srv/nepse/todays_price/notes.csv"]} 60 []
  = (Ok (Some "/srv/nepse/todays_price/Today's Price - 2024-05-20.csv"),
     [EvGlob "/srv/nepse/todays_price" "*";
      EvGlob "/srv/nepse/todays_price" "*.crdownload";
      EvSleep 1;
      EvGlob "/srv/nepse/todays_price" "*";
      EvGlob "/srv/nepse/todays_price" "*.crdownload";
      EvSleep 1;
      EvGlob "/srv/nepse/todays_price" "*";
      EvGlob "/srv/nepse/todays_price" "*.crdownload"]).
Proof. vm_compute. reflexivity. Qed.

(** C10.  The global name [time] is the class [datetime.time], which has
    neither a [time] nor a [sleep] attribute.  So for all arguments
    [wait_for_download_complete] raises [AttributeError] at its first
    statement, before any poll (the trace is unchanged: nothing was
    listed); it returns neither a file nor [None].  [time.sleep] in
    [download_todays_price] raises the same way. *)
Theorem wait_for_download_complete_always_raises_attribute_error
    (cfg : config) (w : world) (fuel : nat) (download_dir : string)
    (initial_files : gset string) (timeout : Z) (tr : trace) :
  ("time" ∉ attributes_of time_global)
  /\ ("sleep" ∉ attributes_of time_global)
  /\ DownloadFile.wait_for_download_complete cfg w time_global fuel
       download_dir initial_files timeout tr
     = (Raise AttributeError, tr)
  /\ (forall r : option string,
        fst (DownloadFile.wait_for_download_complete cfg w time_global fuel
               download_dir initial_files timeout tr) <> Ok r)
  /\ (forall seconds : Z,
        time_sleep time_global seconds tr = (Raise AttributeError, tr)).
Proof.
  assert (H : DownloadFile.wait_for_download_complete cfg w time_global fuel
                download_dir initial_files timeout tr
              = (Raise AttributeError, tr)).
  { unfold DownloadFile.wait_for_download_complete.
    apply run_bind_raise, run_time_time. }
  split; [exact time_not_on_datetime_time|].
  split; [exact sleep_not_on_datetime_time|].
  split; [exact H|].
  split.
  - intros r. rewrite H. discriminate.
  - intros seconds. apply run_time_sleep.
Qed.

(** C5 on the code.  When the timeout has already elapsed the loop guard
    is false at the first test, and the function as written for the module
    [time] returns [None]; with the binding the script has, the same call
    raises [AttributeError], and it does so for every timeout: the result
    is never [None]. *)
Theorem await_timeout_raises_instead_of_none
    (cfg : config) (w : world) (fuel : nat) (download_dir : string)
    (initial_files : gset string) (timeout : Z) (tr : trace) :
  timeout <= 0 ->
  DownloadFile.wait_for_download_complete cfg w time_module (S fuel)
    download_dir initial_files timeout tr
  = (Ok None, tr)
  /\ DownloadFile.wait_for_download_complete cfg w time_global (S fuel)
       download_dir initial_files timeout tr
     = (Raise AttributeError, tr)
  /\ forall timeout' fuel',
       fst (DownloadFile.wait_for_download_complete cfg w time_global fuel'
              download_dir initial_files timeout' tr) <> Ok None.
Proof.
  intros Hto. split; [|split].
  - unfold DownloadFile.wait_for_download_complete.
    erewrite run_bind_ok by apply run_time_time_module.
    rewrite poll_step.
    replace (now w tr - now w tr <? timeout) with false; [reflexivity|].
    symmetry. apply Z.ltb_ge. lia.
  - unfold DownloadFile.wait_for_download_complete.
    apply run_bind_raise, run_time_time.
  - intros timeout' fuel'.
    unfold DownloadFile.wait_for_download_complete.
    erewrite run_bind_raise by apply run_time_time. discriminate.
Qed.

Lemma await_timeout_raises_witness :
  0 <= 0
  /\ DownloadFile.wait_for_download_complete sample_config
       (calm_world (mkdate 2024 5 20) []) time_global 1
       "/srv/nepse/todays_price" ∅ 0 []
     = (Raise AttributeError, []).
Proof.
  split; [lia|].
  exact (proj1 (proj2 (await_timeout_raises_instead_of_none sample_config
                         (calm_world (mkdate 2024 5 20) []) 0
                         "/srv/nepse/todays_price" ∅ 0 [] (Z.le_refl 0)))).
Defined.

(** ** One retrieval attempt *)

Section Retrieval.

Variable cfg : config.
Variable w : world.

Lemma run_external ev answer tr :
  external ev answer tr
  = (match answer tr with Some e => Raise e | None => Ok tt end, tr ++ [ev]).
Proof.
  unfold external, bind, history, emit. now destruct (answer tr).
Qed.

Lemma run_attempt fuel dir init tr :
  let asked :=
    tr ++ logged cfg INFO "Driver started successfully"
       ++ logged cfg INFO "Download directory"
       ++ logged cfg INFO "Starting the process...."
       ++ logged cfg INFO "Opening NEPSE 'Today's Price' page..." in
  DownloadFile.attempt cfg w time_global fuel dir init tr
  = (Raise (match page_load w asked (NEPSE_URL cfg) with
            | Some e => e
            | None => AttributeError
            end),
     tr ++ attempt_events cfg).
Proof.
  intros asked. unfold DownloadFile.attempt, attempt_events.
  do 4 (erewrite run_bind_ok by apply run_log).
  assert (Ha : ((((tr ++ logged cfg INFO "Driver started successfully")
                  ++ logged cfg INFO "Download directory")
                 ++ logged cfg INFO "Starting the process....")
                ++ logged cfg INFO "Opening NEPSE 'Today's Price' page...")
               = asked).
  { unfold asked. now rewrite <- !app_assoc. }
  rewrite Ha.
  assert (Ht : tr ++ logged cfg INFO "Driver started successfully"
                  ++ logged cfg INFO "Download directory"
                  ++ logged cfg INFO "Starting the process...."
                  ++ logged cfg INFO "Opening NEPSE 'Today's Price' page..."
                  ++ [EvGet (NEPSE_URL cfg)]
               = asked ++ [EvGet (NEPSE_URL cfg)]).
  { unfold asked. now rewrite <- !app_assoc. }
  rewrite Ht.
  unfold driver_get.
  destruct (page_load w asked (NEPSE_URL cfg)) as [e|] eqn:E.
  - erewrite run_bind_raise; [reflexivity|].
    rewrite run_external, E. reflexivity.
  - erewrite run_bind_ok; [|rewrite run_external, E; reflexivity].
    erewrite run_bind_raise by apply run_time_sleep. reflexivity.
Qed.

Lemma run_close_browser tr :
  let answer := quit w (tr ++ logged cfg INFO "Closing browser...") in
  try_except
    (log cfg INFO "Closing browser...";;
     driver_quit w;;
     log cfg INFO "Browser closed successfully")
    (fun _ => log cfg WARNING
                "Browser cleanup completed (some background processes may persist)")
    tr
  = (match answer with
     | Some e => if is_Exception e then Ok tt else Raise e
     | None => Ok tt
     end,
     tr ++ cleanup_events cfg answer).
Proof.
  intros answer. unfold cleanup_events.
  assert (Hin : (log cfg INFO "Closing browser...";;
                 driver_quit w;;
                 log cfg INFO "Browser closed successfully") tr
                = match answer with
                  | Some e =>
                      (Raise e,
                       tr ++ logged cfg INFO "Closing browser..." ++ [EvQuit])
                  | None =>
                      (Ok tt,
                       tr ++ logged cfg INFO "Closing browser..." ++ [EvQuit]
                          ++ logged cfg INFO "Browser closed successfully")
                  end).
  { erewrite run_bind_ok by apply run_log.
    unfold driver_quit. subst answer.
    destruct (quit w (tr ++ logged cfg INFO "Closing browser...")) as [e|] eqn:E.
    - erewrite run_bind_raise by (rewrite run_external, E; reflexivity).
      now rewrite <- app_assoc.
    - erewrite run_bind_ok by (rewrite run_external, E; reflexivity).
      rewrite run_log. now rewrite <- !app_assoc. }
  unfold try_except. rewrite Hin. destruct answer as [e|].
  - destruct (is_Exception e).
    + rewrite run_log. now rewrite <- !app_assoc.
    + now rewrite app_nil_r.
  - reflexivity.
Qed.

Lemma run_cleanup tr :
  let answer := quit w (tr ++ logged cfg INFO "Closing browser...") in
  DownloadFile.cleanup cfg w time_global tr
  = (Raise (cleanup_exception answer), tr ++ cleanup_events cfg answer).
Proof.
  intros answer. unfold DownloadFile.cleanup.
  pose proof (run_close_browser tr) as Hc. cbv zeta in Hc. fold answer in Hc.
  unfold cleanup_exception. destruct answer as [e|].
  - destruct (is_Exception e).
    + erewrite run_bind_ok by exact Hc.
      erewrite run_bind_raise by apply run_time_sleep. reflexivity.
    + erewrite run_bind_raise by exact Hc. reflexivity.
  - erewrite run_bind_ok by exact Hc.
    erewrite run_bind_raise by apply run_time_sleep. reflexivity.
Qed.

Lemma Forall_logged (P : event -> Prop) l msg :
  (forall l' msg', P (EvLog l' msg')) -> Forall P (logged cfg l msg).
Proof.
  intros H. unfold logged.
  destruct (threshold cfg <=? levelno l); repeat constructor. apply H.
Qed.

(** Every way [download_todays_price] can run.  The session cannot be
    started, or the first script fails, and that exception leaves with
    nothing cleaned up; or the [try] suite is entered, stops at
    [driver.get] or at [time.sleep(5)], and the [finally] suite stops at
    [time.sleep(2)] unless [driver.quit] already raised past it. *)
Lemma run_download_todays_price fuel tr :
  DownloadFile.download_todays_price cfg w time_global fuel tr
  = match chrome_start w tr with
    | Some e => (Raise e, tr ++ [EvBrowserStart])
    | None =>
        match script_run w (tr ++ [EvBrowserStart]) DownloadFile.stealth_script None with
        | Some e =>
            (Raise e,
             tr ++ [EvBrowserStart; EvExecuteScript DownloadFile.stealth_script None])
        | None =>
            let entered := tr ++ init_events cfg in
            let caught :=
              if is_Exception (attempt_exception cfg w entered)
              then handler_events cfg else [] in
            let answer :=
              quit w (((entered ++ attempt_events cfg) ++ caught)
                      ++ logged cfg INFO "Closing browser...") in
            (Raise (cleanup_exception answer),
             ((entered ++ attempt_events cfg) ++ caught) ++ cleanup_events cfg answer)
        end
    end.
Proof.
  unfold DownloadFile.download_todays_price, DownloadFile.setup_browser, chrome.
  fold DownloadFile.stealth_script.
  destruct (chrome_start w tr) as [e|] eqn:Ec.
  { erewrite run_bind_raise by (rewrite run_external, Ec; reflexivity).
    reflexivity. }
  erewrite run_bind_ok by (rewrite run_external, Ec; reflexivity).
  unfold execute_script.
  destruct (script_run w (tr ++ [EvBrowserStart]) DownloadFile.stealth_script None)
    as [e|] eqn:Es.
  { erewrite run_bind_raise by (rewrite run_external, Es; reflexivity).
    now rewrite <- app_assoc. }
  erewrite run_bind_ok by (rewrite run_external, Es; reflexivity).
  erewrite run_bind_ok by apply run_glob.
  cbv zeta.
  assert (He : ((tr ++ [EvBrowserStart])
                ++ [EvExecuteScript DownloadFile.stealth_script None])
               ++ [EvGlob (RAW_SAVED_DIR cfg) "*"]
               = tr ++ init_events cfg).
  { unfold init_events. now rewrite <- !app_assoc. }
  rewrite He. set (entered := tr ++ init_events cfg).
  set (init := list_to_set _).
  assert (Htry : try_except
                   (f <- DownloadFile.attempt cfg w time_global fuel
                           (RAW_SAVED_DIR cfg) init;;
                    ret (Some f))
                   (fun _ => log cfg INFO "Error occurred";;
                             emit EvTraceback;;
                             ret None) entered
                 = (if is_Exception (attempt_exception cfg w entered)
                    then Ok None else Raise (attempt_exception cfg w entered),
                    (entered ++ attempt_events cfg)
                    ++ (if is_Exception (attempt_exception cfg w entered)
                        then handler_events cfg else []))).
  { unfold try_except.
    erewrite run_bind_raise by apply run_attempt.
    fold (attempt_exception cfg w entered).
    destruct (is_Exception (attempt_exception cfg w entered)).
    - erewrite run_bind_ok by apply run_log.
      unfold handler_events. cbn. now rewrite <- !app_assoc.
    - now rewrite app_nil_r. }
  set (caught := if is_Exception (attempt_exception cfg w entered)
                 then handler_events cfg else []) in *.
  pose proof (run_cleanup ((entered ++ attempt_events cfg) ++ caught)) as Hc.
  cbv zeta in Hc.
  erewrite run_bind_raise; [reflexivity|].
  unfold try_finally. rewrite Htry.
  destruct (is_Exception (attempt_exception cfg w entered));
    subst caught; cbv beta iota; rewrite Hc; reflexivity.
Qed.

End Retrieval.

Ltac events_forall :=
  repeat match goal with
    | |- Forall _ [] => constructor
    | |- Forall _ (_ :: _) => constructor; [intros; try discriminate|]
    | |- Forall _ (logged _ _ _) =>
        apply Forall_logged; intros; try discriminate
    | |- Forall _ (_ ++ _) => apply Forall_app; split
    end.

Lemma attempt_events_pure cfg (P : event -> Prop) :
  (forall l msg, P (EvLog l msg)) -> (forall url, P (EvGet url)) ->
  Forall P (attempt_events cfg).
Proof. intros Hl Hg. unfold attempt_events. events_forall; auto. Qed.

Lemma handler_events_pure cfg (P : event -> Prop) :
  (forall l msg, P (EvLog l msg)) -> P EvTraceback ->
  Forall P (handler_events cfg).
Proof. intros Hl Ht. unfold handler_events. events_forall; auto. Qed.

Lemma cleanup_events_pure cfg (P : event -> Prop) answer :
  (forall l msg, P (EvLog l msg)) -> P EvQuit ->
  Forall P (cleanup_events cfg answer).
Proof.
  intros Hl Hq. unfold cleanup_events.
  destruct answer as [e|]; [destruct (is_Exception e)|]; events_forall; auto.
Qed.

(** C4 on the code.  Every run of [download_todays_price] ends with an
    exception leaving the method: it never returns [None] (nor a file).
    No selector is ever tried, because [time.sleep(5)] or [driver.get]
    stops the [try] suite first; this holds whatever the page would have
    answered, so also in every run in which no selector would match. *)
Theorem retrieval_raises_in_every_run
    (cfg : config) (w : world) (fuel : nat) (tr : trace) :
  exists (e : exn) (added : trace),
    DownloadFile.download_todays_price cfg w time_global fuel tr
    = (Raise e, tr ++ added)
    /\ Forall (fun ev => forall xpath, ev <> EvWaitUntil xpath) added.
Proof.
  rewrite run_download_todays_price.
  destruct (chrome_start w tr) as [e|].
  { exists e, [EvBrowserStart]. split; [reflexivity|]. events_forall. }
  destruct (script_run w (tr ++ [EvBrowserStart]) DownloadFile.stealth_script None) as [e|].
  { exists e, [EvBrowserStart; EvExecuteScript DownloadFile.stealth_script None].
    split; [reflexivity|]. events_forall. }
  cbv zeta.
  set (caught := if is_Exception _ then _ else _).
  set (answer := quit w _).
  exists (cleanup_exception answer),
    (init_events cfg ++ attempt_events cfg ++ caught
     ++ cleanup_events cfg answer).
  split; [now rewrite <- !app_assoc|].
  apply Forall_app; split; [unfold init_events; events_forall|].
  apply Forall_app; split;
    [apply attempt_events_pure; intros; discriminate|].
  apply Forall_app; split;
    [|apply cleanup_events_pure; intros; discriminate].
  subst caught. destruct (is_Exception _); [|constructor].
  apply handler_events_pure; intros; discriminate.
Qed.

(** The run in which no selector would match: the exception escapes. *)
Example retrieval_without_link_raises :
  DownloadFile.download_todays_price sample_config
    (no_link_world (mkdate 2024 5 20) []) time_global 100 []
  = (Raise AttributeError,
     [EvBrowserStart;
      EvExecuteScript DownloadFile.stealth_script None;
      EvGlob "/srv/nepse/todays_price" "*";
      EvGet "https://www.nepalstock.com/today-price";
      EvTraceback;
      EvQuit]).
Proof. vm_compute. reflexivity. Qed.

(** C6 on the code.  Once the session is up, [driver.quit] is attempted on
    the way out, but the [finally] suite then stops at [time.sleep(2)]:
    [pkill] is never run, and the exception of the [finally] suite leaves
    the method.  The [finally] suite itself raises from every state. *)
Theorem cleanup_stops_before_process_sweep
    (cfg : config) (w : world) (fuel : nat) (tr : trace) :
  chrome_start w tr = None ->
  script_run w (tr ++ [EvBrowserStart]) DownloadFile.stealth_script None = None ->
  exists (e : exn) (added : trace),
    DownloadFile.download_todays_price cfg w time_global fuel tr
    = (Raise e, tr ++ added)
    /\ EvQuit ∈ added
    /\ Forall (fun ev => ev <> EvPkill) added
    /\ (e = AttributeError
        \/ (is_Exception e = false /\ exists asked, quit w asked = Some e))
    /\ (forall tr0, exists e0 added0,
          DownloadFile.cleanup cfg w time_global tr0 = (Raise e0, tr0 ++ added0)
          /\ Forall (fun ev => ev <> EvPkill) added0).
Proof.
  intros Hc Hs. rewrite run_download_todays_price, Hc, Hs. cbv zeta.
  set (caught := if is_Exception _ then _ else _).
  set (answer := quit w _).
  exists (cleanup_exception answer),
    (init_events cfg ++ attempt_events cfg ++ caught
     ++ cleanup_events cfg answer).
  split; [now rewrite <- !app_assoc|].
  split; [|split; [|split]].
  - rewrite !elem_of_app. right. right. right.
    unfold cleanup_events. rewrite !elem_of_app. right. left.
    apply list_elem_of_here.
  - apply Forall_app; split; [unfold init_events; events_forall|].
    apply Forall_app; split;
      [apply attempt_events_pure; intros; discriminate|].
    apply Forall_app; split;
      [|apply cleanup_events_pure; intros; discriminate].
    subst caught. destruct (is_Exception _); [|constructor].
    apply handler_events_pure; intros; discriminate.
  - unfold cleanup_exception. destruct answer as [e|] eqn:Ea; [|now left].
    destruct (is_Exception e) eqn:Ee; [now left|].
    right. split; [exact Ee|]. eexists. exact Ea.
  - intros tr0. pose proof (run_cleanup cfg w tr0) as Hr. cbv zeta in Hr.
    eexists _, _. split; [exact Hr|].
    apply cleanup_events_pure; intros; discriminate.
Qed.

Lemma cleanup_stops_before_process_sweep_witness :
  exists (e : exn) (added : trace),
    DownloadFile.download_todays_price sample_config
      (calm_world (mkdate 2024 5 20) []) time_global 100 []
    = (Raise e, [] ++ added)
    /\ EvQuit ∈ added
    /\ Forall (fun ev => ev <> EvPkill) added.
Proof.
  destruct (cleanup_stops_before_process_sweep sample_config
              (calm_world (mkdate 2024 5 20) []) 100 []
              eq_refl eq_refl) as (e & added & H1 & H2 & H3 & _).
  exists e, added. auto.
Defined.

(** ** Listing today's files *)

Section Listing.

Variable w : world.

Lemma sorted_set_nonempty paths : paths <> [] -> sorted_set paths <> [].
Proof.
  destruct paths as [|p ps]; [congruence|]. intros _ Hnil.
  assert (Hin : p ∈ sorted_set (p :: ps)).
  { unfold sorted_set. rewrite merge_sort_Permutation.
    apply elem_of_remove_dups, list_elem_of_here. }
  rewrite Hnil in Hin. now apply elem_of_nil in Hin.
Qed.

(** The call [self.is_file_from_today(f)] passes two arguments to a
    function that declares one. *)
Lemma run_bound_is_file_from_today f tr :
  call_bound PriceFileManager.is_file_from_today_params
    (PriceFileManager.is_file_from_today w) f tr
  = (Raise TypeError, tr).
Proof. reflexivity. Qed.

(** The same holds for [self.file_manager.is_file_modified_today(f)]. *)
Lemma run_bound_is_file_modified_today f tr :
  call_bound PriceFileManager.is_file_modified_today_params
    (PriceFileManager.is_file_modified_today w) f tr
  = (Raise TypeError, tr).
Proof. reflexivity. Qed.

Lemma run_get_todays_files_empty raw_dir tr :
  glob_in (files w tr) raw_dir "*.csv" = [] ->
  PriceFileManager.get_todays_files w raw_dir tr
  = (Ok [], tr ++ [EvGlob raw_dir "*.csv"]).
Proof.
  intros H. unfold PriceFileManager.get_todays_files.
  erewrite run_bind_ok by apply run_glob. rewrite H. reflexivity.
Qed.

Lemma run_get_todays_files_nonempty raw_dir tr :
  glob_in (files w tr) raw_dir "*.csv" <> [] ->
  PriceFileManager.get_todays_files w raw_dir tr
  = (Raise TypeError, tr ++ [EvGlob raw_dir "*.csv"]).
Proof.
  intros H. unfold PriceFileManager.get_todays_files.
  erewrite run_bind_ok by apply run_glob.
  apply sorted_set_nonempty in H.
  destruct (sorted_set (glob_in (files w tr) raw_dir "*.csv")) as [|f fs];
    [congruence|].
  cbn [select_if].
  erewrite run_bind_raise by apply run_bound_is_file_from_today.
  reflexivity.
Qed.

(** A comprehension has no handler: the first condition that raises ends
    it with that exception. *)
Lemma select_if_propagates {A} (cond : A -> M bool)
    (before : list A) (x : A) (after : list A) tr kept tr1 e tr2 :
  select_if cond before tr = (Ok kept, tr1) ->
  cond x tr1 = (Raise e, tr2) ->
  select_if cond (before ++ x :: after) tr = (Raise e, tr2).
Proof.
  revert tr kept. induction before as [|y before IH]; intros tr kept Hb Hx.
  - cbn in Hb. injection Hb as _ <-. cbn [app select_if].
    erewrite run_bind_raise by exact Hx. reflexivity.
  - cbn [app select_if] in *. unfold bind at 1 in Hb. unfold bind at 1.
    destruct (cond y tr) as [[b| |] tr0]; try discriminate.
    unfold bind at 1 in Hb.
    destruct (select_if cond before tr0) as [[rest| |] tr0'] eqn:Er;
      try discriminate.
    injection Hb as _ <-.
    erewrite run_bind_raise by exact (IH tr0 rest Er Hx). reflexivity.
Qed.

Lemma elem_of_sorted_set f paths : f ∈ sorted_set paths <-> f ∈ paths.
Proof.
  unfold sorted_set. rewrite merge_sort_Permutation.
  apply elem_of_remove_dups.
Qed.

(** The two ways the date check ends; it adds nothing to the trace. *)
Lemma run_is_file_from_today f tr :
  PriceFileManager.is_file_from_today w f tr
  = match PriceFileManager.parse_date w (PriceFileManager.date_str_of f) with
    | None => (Raise ValueError, tr)
    | Some d => (Ok (bool_decide (d = today w)), tr)
    end.
Proof.
  unfold PriceFileManager.is_file_from_today. cbv zeta.
  now destruct (PriceFileManager.parse_date w (PriceFileManager.date_str_of f)).
Qed.

(** The comprehension over the date check called as declared: one name
    that does not parse makes the whole comprehension raise. *)
Lemma select_from_today_raises l tr :
  (exists f, f ∈ l
             /\ PriceFileManager.parse_date w (PriceFileManager.date_str_of f)
                = None) ->
  select_if (PriceFileManager.is_file_from_today w) l tr
  = (Raise ValueError, tr).
Proof.
  induction l as [|x l IH]; intros (f & Hin & Hf).
  - now apply elem_of_nil in Hin.
  - cbn [select_if].
    destruct (PriceFileManager.parse_date w (PriceFileManager.date_str_of x))
      as [d|] eqn:Ex.
    + erewrite run_bind_ok
        by (rewrite run_is_file_from_today, Ex; reflexivity).
      erewrite run_bind_raise; [reflexivity|].
      apply IH. exists f. split; [|exact Hf].
      apply elem_of_cons in Hin as [->|Hin]; [congruence|exact Hin].
    + erewrite run_bind_raise
        by (rewrite run_is_file_from_today, Ex; reflexivity).
      reflexivity.
Qed.

(** When every name parses, the comprehension keeps the files whose name
    carries today's date, in the order of the list. *)
Lemma select_from_today_keeps l tr :
  (forall f, f ∈ l ->
     PriceFileManager.parse_date w (PriceFileManager.date_str_of f) <> None) ->
  select_if (PriceFileManager.is_file_from_today w) l tr
  = (Ok (List.filter
           (fun f => bool_decide
              (PriceFileManager.parse_date w (PriceFileManager.date_str_of f)
               = Some (today w))) l), tr).
Proof.
  induction l as [|x l IH]; intros Hall; [reflexivity|].
  cbn [select_if List.filter].
  destruct (PriceFileManager.parse_date w (PriceFileManager.date_str_of x))
    as [d|] eqn:Ex.
  - erewrite run_bind_ok
      by (rewrite run_is_file_from_today, Ex; reflexivity).
    erewrite run_bind_ok
      by (apply IH; intros f Hf; apply Hall, elem_of_cons; now right).
    unfold ret. f_equal. f_equal.
    destruct (decide (d = today w)) as [->|Hne].
    + now rewrite !bool_decide_eq_true_2.
    + rewrite !bool_decide_eq_false_2; [reflexivity|congruence|exact Hne].
  - exfalso. apply (Hall x); [apply list_elem_of_here|exact Ex].
Qed.

End Listing.

(** ** The orchestrator *)

Section Orchestrator.

Variable cfg : config.
Variable w : world.

Lemma run_is_weekend tr :
  MarketChecker.is_weekend cfg w tr
  = (Ok (bool_decide (weekday (today w) ∈ WEEKEND_DAYS cfg)), tr).
Proof. reflexivity. Qed.

Lemma retriever_name_missing :
  "download_filedownload_todays_price" ∉ PriceDataApp.attributes.
Proof. apply (bool_decide_unpack _). vm_compute. exact I. Qed.

(** How [run] ends, from how [download_todays_data] ends. *)
Lemma run_outcome fuel tr r tr' :
  PriceDataApp.download_todays_data cfg w fuel tr = (r, tr') ->
  PriceDataApp.run cfg w fuel tr
  = match r with
    | Ok true => (Ok tt, tr' ++ logged cfg INFO "Task completed successfully")
    | Ok false =>
        (Ok tt,
         tr' ++ logged cfg ERROR "Something went wrong. Please check log")
    | Raise e =>
        if is_Exception e
        then (Ok tt, tr' ++ logged cfg ERROR "An unexpected error occured!")
        else (Raise e, tr')
    | OutOfFuel => (OutOfFuel, tr')
    end.
Proof.
  intros H. unfold PriceDataApp.run, try_except.
  destruct r as [[|]|e|].
  - erewrite run_bind_ok by exact H. cbv beta iota. now rewrite run_log.
  - erewrite run_bind_ok by exact H. cbv beta iota. now rewrite run_log.
  - erewrite run_bind_raise by exact H.
    destruct (is_Exception e); [now rewrite run_log|reflexivity].
  - unfold bind. now rewrite H.
Qed.

End Orchestrator.

(** C2 on the code.  On a trading day with at least one CSV file in the
    store directory (in particular today's correctly named artifact),
    [download_todays_data] does not return [True]: listing today's files
    raises [TypeError] at the first [self.is_file_from_today(f)], and the
    exception leaves the method.  The only event is the listing itself,
    so the retriever is indeed not invoked. *)
Theorem existing_artifact_raises_type_error
    (cfg : config) (w : world) (fuel : nat) (tr : trace) :
  weekday (today w) ∉ WEEKEND_DAYS cfg ->
  glob_in (files w tr) (RAW_SAVED_DIR cfg) "*.csv" <> [] ->
  PriceDataApp.download_todays_data cfg w fuel tr
  = (Raise TypeError, tr ++ [EvGlob (RAW_SAVED_DIR cfg) "*.csv"]).
Proof.
  intros Hwk Hcsv. unfold PriceDataApp.download_todays_data.
  erewrite run_bind_ok by apply run_is_weekend.
  rewrite bool_decide_eq_false_2 by exact Hwk.
  erewrite run_bind_raise by (apply run_get_todays_files_nonempty, Hcsv).
  reflexivity.
Qed.

Lemma existing_artifact_raises_type_error_witness :
  PriceFileManager.is_file_from_today
    (calm_world (mkdate 2024 5 20) [artifact_2024_05_20])
    "/srv/nepse/todays_price/Today's Price - 2024-05-20.csv" []
  = (Ok true, [])
  /\ PriceDataApp.download_todays_data sample_config
       (calm_world (mkdate 2024 5 20) [artifact_2024_05_20]) 100 []
     = (Raise TypeError, [EvGlob "/srv/nepse/todays_price" "*.csv"]).
Proof.
  split; [vm_compute; reflexivity|].
  refine (existing_artifact_raises_type_error sample_config
            (calm_world (mkdate 2024 5 20) [artifact_2024_05_20]) 100 [] _ _).
  - apply (bool_decide_unpack _). vm_compute. exact I.
  - vm_compute. discriminate.
Defined.




(** C7 on the code.  On the download path (trading day, no CSV file in the
    store) [download_todays_data] returns neither [True] nor [False]:
    the instance has no attribute [download_filedownload_todays_price], so
    line 338 raises [AttributeError] before any retriever is called.  The
    trace holds the listing and the log record, and no browser event. *)
Theorem download_path_raises_before_retriever
    (cfg : config) (w : world) (fuel : nat) (tr : trace) :
  weekday (today w) ∉ WEEKEND_DAYS cfg ->
  glob_in (files w tr) (RAW_SAVED_DIR cfg) "*.csv" = [] ->
  PriceDataApp.download_todays_data cfg w fuel tr
  = (Raise AttributeError,
     tr ++ [EvGlob (RAW_SAVED_DIR cfg) "*.csv"]
        ++ logged cfg INFO "No file found for today. Starting download...")
  /\ Forall (fun ev => is_browser_event ev = false)
       ([EvGlob (RAW_SAVED_DIR cfg) "*.csv"]
        ++ logged cfg INFO "No file found for today. Starting download...").
Proof.
  intros Hwk Hcsv. split.
  - unfold PriceDataApp.download_todays_data.
    erewrite run_bind_ok by apply run_is_weekend.
    rewrite bool_decide_eq_false_2 by exact Hwk.
    erewrite run_bind_ok by (apply run_get_todays_files_empty, Hcsv).
    cbv beta iota.
    erewrite run_bind_ok by apply run_log.
    erewrite run_bind_raise
      by (apply run_getattr_missing, retriever_name_missing).
    now rewrite <- app_assoc.
  - events_forall; reflexivity.
Qed.

Lemma download_path_raises_before_retriever_witness :
  PriceDataApp.download_todays_data verbose_config
    (calm_world (mkdate 2024 5 20) []) 100 []
  = (Raise AttributeError,
     [EvGlob "/srv/nepse/todays_price" "*.csv";
      EvLog INFO "No file found for today. Starting download..."]).
Proof.
  refine (proj1 (download_path_raises_before_retriever verbose_config
                   (calm_world (mkdate 2024 5 20) []) 100 [] _ _)).
  - apply (bool_decide_unpack _). vm_compute. exact I.
  - vm_compute. reflexivity.
Defined.

(** ** The top level *)

(** C8 as stated fails: on a trading day with an empty store the chain
    raises [AttributeError]; [run] returns normally, the script ends with
    exit status 0, the same status as on a skipped weekend run, and
    without [--log] nothing at all is written. *)
Lemma failure_leaves_exit_status_zero :
  PriceDataApp.download_todays_data sample_config
    (calm_world (mkdate 2024 5 20) []) 100 []
  = (Raise AttributeError, [EvGlob "/srv/nepse/todays_price" "*.csv"])
  /\ PriceDataApp.main sample_config (calm_world (mkdate 2024 5 20) []) 100 []
     = (Ok tt, [EvGlob "/srv/nepse/todays_price" "*.csv"])
  /\ PriceDataApp.exit_status
       (fst (PriceDataApp.main sample_config
               (calm_world (mkdate 2024 5 20) []) 100 []))
     = Some 0
  /\ PriceDataApp.exit_status
       (fst (PriceDataApp.main sample_config
               (calm_world (mkdate 2024 5 24) []) 100 []))
     = Some 0.
Proof. repeat split; vm_compute; reflexivity. Qed.

(** C8 amended.  When [download_todays_data] raises an exception that
    derives from [Exception], [run] catches it, issues one record
    ["An unexpected error occured!"] at level ERROR and returns normally.
    The record is written only under [--log]; without the flag nothing is
    added to the trace.  The exit status is 0, as it is whenever
    [download_todays_data] returns, with [True] or with [False]: the exit
    status does not tell success from failure. *)
Theorem run_logs_exception_and_exits_zero
    (cfg : config) (w : world) (fuel : nat) (tr tr' : trace) (e : exn) :
  PriceDataApp.download_todays_data cfg w fuel tr = (Raise e, tr') ->
  is_Exception e = true ->
  PriceDataApp.main cfg w fuel tr
  = (Ok tt, tr' ++ logged cfg ERROR "An unexpected error occured!")
  /\ PriceDataApp.exit_status (fst (PriceDataApp.main cfg w fuel tr)) = Some 0
  /\ (args_log cfg = true ->
      logged cfg ERROR "An unexpected error occured!"
      = [EvLog ERROR "An unexpected error occured!"])
  /\ (args_log cfg = false ->
      logged cfg ERROR "An unexpected error occured!" = [])
  /\ (forall cfg0 w0 fuel0 tr0 tr0' (b : bool),
        PriceDataApp.download_todays_data cfg0 w0 fuel0 tr0 = (Ok b, tr0') ->
        PriceDataApp.exit_status (fst (PriceDataApp.main cfg0 w0 fuel0 tr0))
        = Some 0).
Proof.
  intros Hd He.
  assert (Hm : PriceDataApp.main cfg w fuel tr
               = (Ok tt, tr' ++ logged cfg ERROR "An unexpected error occured!")).
  { unfold PriceDataApp.main. rewrite (run_outcome cfg w fuel tr _ _ Hd).
    now rewrite He. }
  split; [exact Hm|]. split; [now rewrite Hm|].
  split; [|split].
  - intros Hl. unfold logged, threshold. now rewrite Hl.
  - intros Hl. unfold logged, threshold. now rewrite Hl.
  - intros cfg0 w0 fuel0 tr0 tr0' b Hb. unfold PriceDataApp.main.
    rewrite (run_outcome cfg0 w0 fuel0 tr0 _ _ Hb). now destruct b.
Qed.

Lemma run_logs_exception_and_exits_zero_witness :
  PriceDataApp.main verbose_config (calm_world (mkdate 2024 5 20) []) 100 []
  = (Ok tt,
     [EvGlob "/srv/nepse/todays_price" "*.csv";
      EvLog INFO "No file found for today. Starting download...";
      EvLog ERROR "An unexpected error occured!"])
  /\ PriceDataApp.exit_status
       (fst (PriceDataApp.main verbose_config
               (calm_world (mkdate 2024 5 20) []) 100 []))
     = Some 0.
Proof.
  assert (Hd : PriceDataApp.download_todays_data verbose_config
                 (calm_world (mkdate 2024 5 20) []) 100 []
               = (Raise AttributeError,
                  [EvGlob "/srv/nepse/todays_price" "*.csv";
                   EvLog INFO "No file found for today. Starting download..."]))
    by (vm_compute; reflexivity).
  destruct (run_logs_exception_and_exits_zero verbose_config
              (calm_world (mkdate 2024 5 20) []) 100 [] _ AttributeError
              Hd eq_refl) as (H1 & H2 & _).
  split; [exact H1|exact H2].
Defined.

(** ** The retriever if [time] were the module *)

(** With [time] bound to the module and a page on which no selector
    matches, the attempt polls until the timeout and returns [None] when
    the scroll script tolerates a missing element. *)
Example module_time_no_link_returns_none :
  fst (DownloadFile.download_todays_price sample_config
         (no_link_world (mkdate 2024 5 20) []) time_module 100 [])
  = Ok None.
Proof. vm_compute. reflexivity. Qed.

(** When the scroll script fails on the missing element, the handler of
    line 235 runs with [downloaded_file] never assigned, and
    [return downloaded_file] raises [UnboundLocalError]. *)
Example module_time_no_link_unbound_local :
  fst (DownloadFile.download_todays_price sample_config
         (strict_page_world (mkdate 2024 5 20) []) time_module 100 [])
  = Raise UnboundLocalError.
Proof. vm_compute. reflexivity. Qed.

(** In that run the sweep does take place, after [driver.quit]. *)
Example module_time_cleanup_reaches_sweep :
  List.filter
    (fun ev => bool_decide (ev = EvQuit) || bool_decide (ev = EvPkill))
    (snd (DownloadFile.download_todays_price verbose_config
            (strict_page_world (mkdate 2024 5 20) []) time_module 100 []))
  = [EvQuit; EvPkill].
Proof. vm_compute. reflexivity. Qed.

(** ** Further properties: the process sweep *)

Section Sweep.

Variable cfg : config.
Variable w : world.

(** X1.  [kill_chromedriver] runs [pkill] once and lets no exception that
    derives from [Exception] out: when the command cannot be run it
    returns all the same and writes nothing; when it runs, the record
    "Cleaned up chromedriver processes" is logged for return code 0 only.
    An exception outside [Exception] is not caught. *)
Theorem kill_chromedriver_swallows_errors (tr : trace) :
  DownloadFile.kill_chromedriver cfg w tr
  = (match pkill w tr with
     | inl e => if is_Exception e then Ok tt else Raise e
     | inr _ => Ok tt
     end,
     tr ++ sweep_events cfg (pkill w tr)).
Proof.
  unfold DownloadFile.kill_chromedriver, try_except, sweep_events.
  unfold subprocess_run_pkill, bind at 1, bind at 1, history, emit.
  unfold bind. destruct (pkill w tr) as [e|code]; cbn.
  - destruct (is_Exception e); reflexivity.
  - destruct (code =? 0).
    + rewrite run_log. now rewrite <- app_assoc.
    + reflexivity.
Qed.

End Sweep.

(** ** Further properties: the selector loop *)

Section Locate.

Variable cfg : config.
Variable w : world.

(** One pass of the loop of lines 162-174. *)
Lemma locate_step selector rest link tr :
  DownloadFile.locate cfg w (selector :: rest) link tr
  = match clickable w (tr ++ logged cfg INFO "Trying selector") selector with
    | inr el => (Ok (Some el), tr ++ found_events cfg selector)
    | inl e =>
        if is_Exception e
        then DownloadFile.locate cfg w rest link
               (tr ++ failed_events cfg selector)
        else (Raise e, tr ++ interrupted_events cfg selector)
    end.
Proof.
  cbn [DownloadFile.locate].
  unfold found_events, failed_events, interrupted_events.
  assert (Hwait : wait_until_clickable w selector
                    (tr ++ logged cfg INFO "Trying selector")
                  = (match clickable w (tr ++ logged cfg INFO "Trying selector")
                             selector with
                     | inl e => Raise e
                     | inr el => Ok el
                     end,
                     (tr ++ logged cfg INFO "Trying selector")
                     ++ [EvWaitUntil selector])).
  { unfold wait_until_clickable, bind, history, emit.
    now destruct (clickable w _ selector). }
  destruct (clickable w (tr ++ logged cfg INFO "Trying selector") selector)
    as [e|el] eqn:Ec.
  - assert (Hbody : (log cfg INFO "Trying selector";;
                     el <- wait_until_clickable w selector;;
                     log cfg INFO "Found download link with selector";;
                     ret (Some el)) tr
                    = (Raise e, (tr ++ logged cfg INFO "Trying selector")
                                ++ [EvWaitUntil selector])).
    { erewrite run_bind_ok by apply run_log.
      erewrite run_bind_raise by exact Hwait. reflexivity. }
    destruct (is_Exception e) eqn:Ee.
    + erewrite run_bind_ok.
      2:{ unfold try_except. rewrite Hbody, Ee.
          erewrite run_bind_ok by apply run_log. reflexivity. }
      cbv beta iota. now rewrite <- !app_assoc.
    + erewrite run_bind_raise.
      2:{ unfold try_except. rewrite Hbody, Ee. reflexivity. }
      now rewrite <- !app_assoc.
  - erewrite run_bind_ok.
    2:{ unfold try_except.
        erewrite run_bind_ok by apply run_log.
        erewrite run_bind_ok by exact Hwait.
        erewrite run_bind_ok by apply run_log. reflexivity. }
    cbv beta iota. unfold ret. now rewrite <- !app_assoc.
Qed.

(** X2.  When the waits on the first selectors fail and the next selector
    yields an element, the loop returns that element: the failed selectors
    were tried in order, one wait each, and no selector after the
    successful one is tried. *)
Theorem locate_first_success_wins
    (failed : list string) (selector : string) (rest : list string)
    (el : element) (link : option element) (tr : trace) :
  all_fail w failed ->
  (forall tr0, clickable w tr0 selector = inr el) ->
  DownloadFile.locate cfg w (failed ++ selector :: rest) link tr
  = (Ok (Some el),
     tr ++ concat (map (failed_events cfg) failed) ++ found_events cfg selector).
Proof.
  intros Hfail Hfound. revert tr.
  induction failed as [|s failed IH]; intros tr.
  - cbn [app map concat]. rewrite locate_step, Hfound. reflexivity.
  - cbn [app map concat]. rewrite locate_step.
    destruct (Hfail s (tr ++ logged cfg INFO "Trying selector"))
      as (e & -> & ->); [apply list_elem_of_here|].
    rewrite IH.
    + now rewrite <- !app_assoc.
    + intros s' tr' Hin. apply Hfail. now apply list_elem_of_further.
Qed.

(** X3.  When the wait fails on every selector, the loop tries each one
    once, in order, and ends without raising; [download_link] keeps the
    value it had, [None] in [download_todays_price]. *)
Theorem locate_all_fail_keeps_none
    (selectors : list string) (link : option element) (tr : trace) :
  all_fail w selectors ->
  DownloadFile.locate cfg w selectors link tr
  = (Ok link, tr ++ concat (map (failed_events cfg) selectors)).
Proof.
  intros Hfail. revert tr.
  induction selectors as [|s selectors IH]; intros tr.
  - cbn. unfold ret. now rewrite app_nil_r.
  - cbn [map concat]. rewrite locate_step.
    destruct (Hfail s (tr ++ logged cfg INFO "Trying selector"))
      as (e & -> & ->); [apply list_elem_of_here|].
    rewrite IH.
    + now rewrite <- !app_assoc.
    + intros s' tr' Hin. apply Hfail. now apply list_elem_of_further.
Qed.

(** X4.  An exception outside [Exception] raised by a wait is not handled
    by the loop: it leaves at once, no failure is logged for that selector
    and the remaining selectors are not tried. *)
Theorem locate_lets_base_exception_through
    (failed : list string) (selector : string) (rest : list string)
    (e : exn) (link : option element) (tr : trace) :
  all_fail w failed ->
  (forall tr0, clickable w tr0 selector = inl e) ->
  is_Exception e = false ->
  DownloadFile.locate cfg w (failed ++ selector :: rest) link tr
  = (Raise e,
     tr ++ concat (map (failed_events cfg) failed)
        ++ interrupted_events cfg selector).
Proof.
  intros Hfail Hraise He. revert tr.
  induction failed as [|s failed IH]; intros tr.
  - cbn [app map concat]. rewrite locate_step, Hraise, He. reflexivity.
  - cbn [app map concat]. rewrite locate_step.
    destruct (Hfail s (tr ++ logged cfg INFO "Trying selector"))
      as (e' & -> & ->); [apply list_elem_of_here|].
    rewrite IH.
    + now rewrite <- !app_assoc.
    + intros s' tr' Hin. apply Hfail. now apply list_elem_of_further.
Qed.

End Locate.

Lemma locate_first_success_wins_witness :
  DownloadFile.locate verbose_config
    (page_world (mkdate 2024 5 20) [] second_selector_page)
    DownloadFile.download_selectors None []
  = (Ok (Some 7%nat),
     [EvLog INFO "Trying selector";
      EvWaitUntil
        "//a[contains(@class,'table__file') and contains(text(),'Download as CSV')]";
      EvLog ERROR "Selector failed";
      EvLog INFO "Trying selector";
      EvWaitUntil "//a[contains(text(),'Download as CSV')]";
      EvLog INFO "Found download link with selector"]).
Proof.
  refine (locate_first_success_wins verbose_config
            (page_world (mkdate 2024 5 20) [] second_selector_page)
            ["//a[contains(@class,'table__file') and contains(text(),'Download as CSV')]"]
            "//a[contains(text(),'Download as CSV')]"
            _ 7%nat None [] _ _).
  - intros s tr Hin. apply list_elem_of_singleton in Hin. subst s.
    exists TimeoutException. split; reflexivity.
  - intros tr0. reflexivity.
Defined.

Lemma locate_all_fail_keeps_none_witness :
  DownloadFile.locate sample_config (no_link_world (mkdate 2024 5 20) [])
    DownloadFile.download_selectors None []
  = (Ok None,
     [] ++ concat (map (failed_events sample_config)
                     DownloadFile.download_selectors)).
Proof.
  apply (locate_all_fail_keeps_none sample_config
           (no_link_world (mkdate 2024 5 20) [])).
  intros s tr _. exists TimeoutException. split; reflexivity.
Defined.

Lemma locate_lets_base_exception_through_witness :
  DownloadFile.locate verbose_config
    (page_world (mkdate 2024 5 20) [] interrupted_page)
    DownloadFile.download_selectors None []
  = (Raise KeyboardInterrupt,
     [EvLog INFO "Trying selector";
      EvWaitUntil
        "//a[contains(@class,'table__file') and contains(text(),'Download as CSV')]";
      EvLog ERROR "Selector failed";
      EvLog INFO "Trying selector";
      EvWaitUntil "//a[contains(text(),'Download as CSV')]"]).
Proof.
  refine (locate_lets_base_exception_through verbose_config
            (page_world (mkdate 2024 5 20) [] interrupted_page)
            ["//a[contains(@class,'table__file') and contains(text(),'Download as CSV')]"]
            "//a[contains(text(),'Download as CSV')]"
            _ KeyboardInterrupt None [] _ _ _).
  - intros s tr Hin. apply list_elem_of_singleton in Hin. subst s.
    exists TimeoutException. split; reflexivity.
  - intros tr0. reflexivity.
  - reflexivity.
Defined.

(** ** Further properties: the trace only grows *)

Create HintDb trace_grows.

Section Growth.

Variable cfg : config.
Variable w : world.

Lemma extends_ret {A} (a : A) : extends (ret a).
Proof. intros tr r tr' H. injection H as _ <-. exists []. now rewrite app_nil_r. Qed.

Lemma extends_raise {A} (e : exn) : extends (@raise A e).
Proof. intros tr r tr' H. injection H as _ <-. exists []. now rewrite app_nil_r. Qed.

Lemma extends_diverge {A} : extends (@diverge A).
Proof. intros tr r tr' H. injection H as _ <-. exists []. now rewrite app_nil_r. Qed.

Lemma extends_history : extends history.
Proof. intros tr r tr' H. injection H as _ <-. exists []. now rewrite app_nil_r. Qed.

Lemma extends_emit ev : extends (emit ev).
Proof. intros tr r tr' H. injection H as _ <-. now exists [ev]. Qed.

Lemma extends_bind {A B} (m : M A) (k : A -> M B) :
  extends m -> (forall a, extends (k a)) -> extends (bind m k).
Proof.
  intros Hm Hk tr r tr' H. unfold bind in H.
  destruct (m tr) as [[a|e|] tr0] eqn:Em; destruct (Hm _ _ _ Em) as [x ->].
  - destruct (Hk a _ _ _ H) as [y ->]. exists (x ++ y). now rewrite app_assoc.
  - injection H as _ <-. now exists x.
  - injection H as _ <-. now exists x.
Qed.

Lemma extends_try_except {A} (m : M A) (h : exn -> M A) :
  extends m -> (forall e, extends (h e)) -> extends (try_except m h).
Proof.
  intros Hm Hh tr r tr' H. unfold try_except in H.
  destruct (m tr) as [[a|e|] tr0] eqn:Em; destruct (Hm _ _ _ Em) as [x ->].
  - injection H as _ <-. now exists x.
  - destruct (is_Exception e).
    + destruct (Hh e _ _ _ H) as [y ->]. exists (x ++ y). now rewrite app_assoc.
    + injection H as _ <-. now exists x.
  - injection H as _ <-. now exists x.
Qed.

Lemma extends_try_finally {A} (m : M A) (f : M unit) :
  extends m -> extends f -> extends (try_finally m f).
Proof.
  intros Hm Hf tr r tr' H. unfold try_finally in H.
  destruct (m tr) as [[a|e|] tr0] eqn:Em; destruct (Hm _ _ _ Em) as [x ->].
  - destruct (f (tr ++ x)) as [[u|e|] tr1] eqn:Ef;
      destruct (Hf _ _ _ Ef) as [y ->]; injection H as _ <-;
      exists (x ++ y); now rewrite app_assoc.
  - destruct (f (tr ++ x)) as [[u|e'|] tr1] eqn:Ef;
      destruct (Hf _ _ _ Ef) as [y ->]; injection H as _ <-;
      exists (x ++ y); now rewrite app_assoc.
  - injection H as _ <-. now exists x.
Qed.

Lemma extends_log l msg : extends (log cfg l msg).
Proof.
  unfold log. destruct (threshold cfg <=? levelno l);
    [apply extends_emit|apply extends_ret].
Qed.

Lemma extends_getattr attrs name : extends (getattr attrs name).
Proof.
  unfold getattr. destruct (bool_decide (name ∈ attrs));
    [apply extends_ret|apply extends_raise].
Qed.

#[local] Hint Resolve extends_ret extends_raise extends_diverge
  extends_history extends_emit extends_log extends_getattr : trace_grows.
#[local] Hint Extern 2 (extends (bind _ _)) =>
  apply extends_bind; [|intros] : trace_grows.
#[local] Hint Extern 2 (extends (try_except _ _)) =>
  apply extends_try_except; [|intros] : trace_grows.
#[local] Hint Extern 2 (extends (try_finally _ _)) =>
  apply extends_try_finally : trace_grows.

Lemma extends_time_time tm : extends (time_time w tm).
Proof. unfold time_time. auto 10 with trace_grows. Qed.

Lemma extends_time_sleep tm n : extends (time_sleep tm n).
Proof. unfold time_sleep. auto 10 with trace_grows. Qed.

Lemma extends_glob dir pattern : extends (glob w dir pattern).
Proof. unfold glob. auto 10 with trace_grows. Qed.

Lemma extends_external ev answer : extends (external ev answer).
Proof.
  unfold external. apply extends_bind; [auto with trace_grows|intros tr0].
  apply extends_bind; [auto with trace_grows|intros _].
  destruct (answer tr0); auto with trace_grows.
Qed.

Lemma extends_wait_until xpath : extends (wait_until_clickable w xpath).
Proof.
  unfold wait_until_clickable.
  apply extends_bind; [auto with trace_grows|intros tr0].
  apply extends_bind; [auto with trace_grows|intros _].
  destruct (clickable w tr0 xpath); auto with trace_grows.
Qed.

Lemma extends_link_click link : extends (link_click w link).
Proof.
  destruct link; cbn; [apply extends_external|apply extends_raise].
Qed.

Lemma extends_pkill : extends (subprocess_run_pkill w).
Proof.
  unfold subprocess_run_pkill.
  apply extends_bind; [auto with trace_grows|intros tr0].
  apply extends_bind; [auto with trace_grows|intros _].
  destruct (pkill w tr0); auto with trace_grows.
Qed.

#[local] Hint Resolve extends_time_time extends_time_sleep extends_glob
  extends_external extends_wait_until extends_link_click extends_pkill
  : trace_grows.

Lemma extends_kill_chromedriver :
  extends (DownloadFile.kill_chromedriver cfg w).
Proof.
  unfold DownloadFile.kill_chromedriver.
  apply extends_try_except; [|auto with trace_grows].
  apply extends_bind; [auto with trace_grows|intros code].
  destruct (code =? 0); auto with trace_grows.
Qed.

Lemma extends_poll tm fuel dir init timeout start :
  extends (DownloadFile.poll cfg w tm fuel dir init timeout start).
Proof.
  induction fuel as [|fuel IH]; [apply extends_diverge|].
  cbn [DownloadFile.poll].
  apply extends_bind; [auto with trace_grows|intros t].
  destruct (t - start <? timeout); [|auto with trace_grows].
  apply extends_bind; [auto with trace_grows|intros current].
  apply extends_bind; [auto with trace_grows|intros markers].
  assert (Hrest : extends
            ((match markers with
              | [] => ret tt
              | _ :: _ => log cfg INFO "Download in progress..."
              end);;
             time_sleep tm 1;;
             DownloadFile.poll cfg w tm fuel dir init timeout start)).
  { apply extends_bind; [destruct markers; auto with trace_grows|intros _].
    apply extends_bind; [auto with trace_grows|intros _]. exact IH. }
  destruct (filter _ _) as [|f fs]; [exact Hrest|].
  destruct markers; [auto with trace_grows|exact Hrest].
Qed.

Lemma extends_wait tm fuel dir init timeout :
  extends (DownloadFile.wait_for_download_complete cfg w tm fuel dir init timeout).
Proof.
  unfold DownloadFile.wait_for_download_complete.
  apply extends_bind; [auto with trace_grows|intros start].
  apply extends_poll.
Qed.

Lemma extends_locate selectors link :
  extends (DownloadFile.locate cfg w selectors link).
Proof.
  induction selectors as [|s selectors IH]; [apply extends_ret|].
  cbn [DownloadFile.locate].
  apply extends_bind; [auto 20 with trace_grows|intros found].
  destruct found; [apply extends_ret|exact IH].
Qed.

Lemma extends_attempt tm fuel dir init :
  extends (DownloadFile.attempt cfg w tm fuel dir init).
Proof.
  unfold DownloadFile.attempt, driver_get, execute_script.
  do 6 (apply extends_bind; [auto with trace_grows|intros _]).
  apply extends_bind; [apply extends_locate|intros link].
  do 3 (apply extends_bind; [auto with trace_grows|intros _]).
  apply extends_bind; [auto 20 with trace_grows|intros _].
  apply extends_bind; [auto with trace_grows|intros _].
  apply extends_bind; [apply extends_wait|intros file].
  apply extends_bind; [|auto with trace_grows].
  destruct file; auto 20 with trace_grows.
Qed.

End Growth.

(** ** Further properties: one retrieval, whatever [time] names *)

Section AnyBinding.

Variable cfg : config.
Variable w : world.
Variable tm : time_object.

(** X5.  When [webdriver.Chrome] raises, [download_todays_price] ends with
    that exception at once: the call sits before the [try] statement, so
    nothing is logged, no script is run and no cleanup takes place. *)
Theorem session_start_failure_propagates (fuel : nat) (tr : trace) (e : exn) :
  chrome_start w tr = Some e ->
  DownloadFile.download_todays_price cfg w tm fuel tr
  = (Raise e, tr ++ [EvBrowserStart]).
Proof.
  intros Hc.
  unfold DownloadFile.download_todays_price, DownloadFile.setup_browser, chrome.
  erewrite run_bind_raise by (rewrite run_external, Hc; reflexivity).
  reflexivity.
Qed.

(** X6.  When the session starts and the first [execute_script] raises,
    the exception leaves [download_todays_price] before the [try]
    statement is entered: the trace ends with that script, so
    [driver.quit] is never called on the session just started and no
    process sweep is run. *)
Theorem first_script_failure_leaves_session_open
    (fuel : nat) (tr : trace) (e : exn) :
  chrome_start w tr = None ->
  script_run w (tr ++ [EvBrowserStart]) DownloadFile.stealth_script None
  = Some e ->
  DownloadFile.download_todays_price cfg w tm fuel tr
  = (Raise e,
     tr ++ [EvBrowserStart; EvExecuteScript DownloadFile.stealth_script None]).
Proof.
  intros Hc Hs.
  unfold DownloadFile.download_todays_price, DownloadFile.setup_browser, chrome.
  erewrite run_bind_ok by (rewrite run_external, Hc; reflexivity).
  unfold execute_script.
  erewrite run_bind_raise by (rewrite run_external, Hs; reflexivity).
  now rewrite <- app_assoc.
Qed.

Lemma kill_chromedriver_ends tr :
  exists r added,
    DownloadFile.kill_chromedriver cfg w tr = (r, tr ++ added)
    /\ r <> OutOfFuel.
Proof.
  destruct (DownloadFile.kill_chromedriver cfg w tr) as [r tr'] eqn:Ek.
  destruct (extends_kill_chromedriver cfg w _ _ _ Ek) as [added ->].
  exists r, added. split; [reflexivity|].
  intros ->. revert Ek.
  unfold DownloadFile.kill_chromedriver, try_except, subprocess_run_pkill.
  unfold bind, history, emit.
  destruct (pkill w tr) as [e|code]; cbn.
  - destruct (is_Exception e); discriminate.
  - destruct (code =? 0); [rewrite run_log|]; discriminate.
Qed.

(** The [finally] suite always starts with the attempt to quit. *)
Lemma cleanup_attempts_quit tr :
  exists r after,
    DownloadFile.cleanup cfg w tm tr
    = (r, tr ++ logged cfg INFO "Closing browser..." ++ EvQuit :: after)
    /\ r <> OutOfFuel.
Proof.
  unfold DownloadFile.cleanup.
  pose proof (run_close_browser cfg w tr) as Hc. cbv zeta in Hc.
  set (answer := quit w (tr ++ logged cfg INFO "Closing browser...")) in *.
  assert (Hshape : exists tail,
            tr ++ cleanup_events cfg answer
            = tr ++ logged cfg INFO "Closing browser..." ++ EvQuit :: tail).
  { unfold cleanup_events. eexists. reflexivity. }
  destruct Hshape as [tail Htail].
  assert (Hrest : forall tr0, exists r added,
            (time_sleep tm 2;; DownloadFile.kill_chromedriver cfg w) tr0
            = (r, tr0 ++ added) /\ r <> OutOfFuel).
  { intros tr0. unfold bind.
    destruct (time_sleep tm 2 tr0) as [[u|e|] tr1] eqn:Es.
    - destruct (extends_time_sleep tm 2 _ _ _ Es) as [x ->].
      destruct (kill_chromedriver_ends (tr0 ++ x)) as (r & y & -> & Hr).
      exists r, (x ++ y). rewrite <- app_assoc. split; [reflexivity|exact Hr].
    - destruct (extends_time_sleep tm 2 _ _ _ Es) as [x ->].
      eexists _, _. split; [reflexivity|discriminate].
    - exfalso. unfold time_sleep, bind, getattr, emit in Es.
      destruct (bool_decide _); discriminate. }
  destruct answer as [e|].
  - destruct (is_Exception e).
    + erewrite run_bind_ok by exact Hc.
      destruct (Hrest (tr ++ cleanup_events cfg (Some e))) as (r & added & -> & Hr).
      rewrite Htail. exists r, (tail ++ added). split; [|exact Hr].
      now rewrite <- !app_assoc.
    + erewrite run_bind_raise by exact Hc. rewrite Htail.
      exists (Raise e), tail. split; [reflexivity|discriminate].
  - erewrite run_bind_ok by exact Hc.
    destruct (Hrest (tr ++ cleanup_events cfg None)) as (r & added & -> & Hr).
    rewrite Htail. exists r, (tail ++ added). split; [|exact Hr].
    now rewrite <- !app_assoc.
Qed.


(** X8.  [wait_for_download_complete] hands back a file only from a poll
    whose listing of [*.crdownload] is empty; the file is then one that the
    listing of that poll shows, that was not in the initial snapshot and
    whose suffix is [.csv] in any letter case.  (With [time] bound to the
    class [datetime.time], as in the script, no file is ever handed back;
    with the module [time] it is the guarantee of the loop.) *)
Theorem await_returns_file_only_without_marker
    (fuel : nat) (dir : string) (init : gset string) (timeout : Z)
    (tr tr' : trace) (f : string) :
  DownloadFile.wait_for_download_complete cfg w tm fuel dir init timeout tr
  = (Ok (Some f), tr') ->
  exists tr1,
    tr' = tr1 ++ [EvGlob dir "*"; EvGlob dir "*.crdownload"]
    /\ glob_in (files w (tr1 ++ [EvGlob dir "*"])) dir "*.crdownload" = []
    /\ f ∈ glob_in (files w tr1) dir "*"
    /\ (f ∉ init)
    /\ PyStr.lower (PyPath.suffix f) = ".csv".
Proof.
  unfold DownloadFile.wait_for_download_complete. destruct tm.
  - intros H. erewrite run_bind_raise in H by apply run_time_time.
    discriminate.
  - intros H. erewrite run_bind_ok in H by apply run_time_time_module.
    exact (poll_accepts_only_without_marker cfg w _ _ _ _ _ _ _ _ H).
Qed.

(** X9.  [wait_for_download_complete] returns [None] only when the wall
    clock, as [time.time()] reads it, shows at least [timeout] seconds more
    at the last test of the loop guard than at the start of the call.  The
    seconds are those of the clock, not a count of the sleeps: a listing
    may take any time, so [None] can come back after fewer than [timeout]
    sleeps. *)
Theorem await_returns_none_only_after_timeout
    (fuel : nat) (dir : string) (init : gset string) (timeout : Z)
    (tr tr' : trace) :
  DownloadFile.wait_for_download_complete cfg w tm fuel dir init timeout tr
  = (Ok None, tr') ->
  timeout <= now w tr' - now w tr.
Proof.
  unfold DownloadFile.wait_for_download_complete. destruct tm.
  - intros H. erewrite run_bind_raise in H by apply run_time_time.
    discriminate.
  - intros H. erewrite run_bind_ok in H by apply run_time_time_module.
    exact (poll_none_only_after_timeout cfg w _ _ _ _ _ _ _ H).
Qed.


End AnyBinding.

(** ** Further properties: the orchestrator as a whole *)

Section WholeRun.

Variable cfg : config.
Variable w : world.

(** Every way [download_todays_data] can run. *)
Lemma run_download_todays_data fuel tr :
  PriceDataApp.download_todays_data cfg w fuel tr
  = if bool_decide (weekday (today w) ∈ WEEKEND_DAYS cfg) then
      (Ok true,
       tr ++ logged cfg INFO "Weekend detected - market closed, skipping download")
    else
      match glob_in (files w tr) (RAW_SAVED_DIR cfg) "*.csv" with
      | [] =>
          (Raise AttributeError,
           tr ++ [EvGlob (RAW_SAVED_DIR cfg) "*.csv"]
              ++ logged cfg INFO "No file found for today. Starting download...")
      | _ :: _ =>
          (Raise TypeError, tr ++ [EvGlob (RAW_SAVED_DIR cfg) "*.csv"])
      end.
Proof.
  unfold PriceDataApp.download_todays_data.
  erewrite run_bind_ok by apply run_is_weekend.
  destruct (bool_decide (weekday (today w) ∈ WEEKEND_DAYS cfg)).
  - erewrite run_bind_ok by apply run_log. reflexivity.
  - destruct (glob_in (files w tr) (RAW_SAVED_DIR cfg) "*.csv") as [|p ps] eqn:Eg.
    + erewrite run_bind_ok by (apply run_get_todays_files_empty, Eg).
      cbv beta iota.
      erewrite run_bind_ok by apply run_log.
      erewrite run_bind_raise
        by (apply run_getattr_missing, retriever_name_missing).
      now rewrite <- app_assoc.
    + erewrite run_bind_raise; [reflexivity|].
      apply run_get_todays_files_nonempty. rewrite Eg. discriminate.
Qed.

(** X11.  [download_todays_data] returns [True] exactly on a non-trading
    day.  On a trading day it never returns: it raises [TypeError] when the
    store holds a CSV file and [AttributeError] when it holds none; the
    value [False] is never returned. *)
Theorem download_todays_data_succeeds_only_on_weekends
    (fuel : nat) (tr : trace) :
  let outcome := fst (PriceDataApp.download_todays_data cfg w fuel tr) in
  (outcome = Ok true <-> weekday (today w) ∈ WEEKEND_DAYS cfg)
  /\ outcome <> Ok false
  /\ outcome <> OutOfFuel
  /\ (weekday (today w) ∉ WEEKEND_DAYS cfg ->
      (outcome = Raise TypeError
       <-> glob_in (files w tr) (RAW_SAVED_DIR cfg) "*.csv" <> [])
      /\ (outcome = Raise AttributeError
          <-> glob_in (files w tr) (RAW_SAVED_DIR cfg) "*.csv" = [])).
Proof.
  cbv zeta. rewrite run_download_todays_data.
  destruct (bool_decide (weekday (today w) ∈ WEEKEND_DAYS cfg)) eqn:Ew.
  - apply bool_decide_eq_true_1 in Ew. cbn.
    repeat split; try discriminate; tauto.
  - apply bool_decide_eq_false_1 in Ew.
    destruct (glob_in (files w tr) (RAW_SAVED_DIR cfg) "*.csv"); cbn;
      repeat split; try discriminate; try congruence; try tauto.
Qed.

(** What one run of the script adds to the trace. *)
Lemma run_main fuel tr :
  PriceDataApp.main cfg w fuel tr
  = (Ok tt,
     tr ++
     if bool_decide (weekday (today w) ∈ WEEKEND_DAYS cfg) then
       logged cfg INFO "Weekend detected - market closed, skipping download"
       ++ logged cfg INFO "Task completed successfully"
     else
       [EvGlob (RAW_SAVED_DIR cfg) "*.csv"]
       ++ match glob_in (files w tr) (RAW_SAVED_DIR cfg) "*.csv" with
          | [] => logged cfg INFO "No file found for today. Starting download..."
          | _ :: _ => []
          end
       ++ logged cfg ERROR "An unexpected error occured!").
Proof.
  unfold PriceDataApp.main.
  pose proof (run_download_todays_data fuel tr) as Hd.
  destruct (bool_decide (weekday (today w) ∈ WEEKEND_DAYS cfg)).
  - rewrite (run_outcome cfg w fuel tr _ _ Hd). now rewrite <- app_assoc.
  - destruct (glob_in (files w tr) (RAW_SAVED_DIR cfg) "*.csv");
      rewrite (run_outcome cfg w fuel tr _ _ Hd); cbn [is_Exception];
      now rewrite <- !app_assoc.
Qed.

(** X12.  Whatever the configuration, the date, the store and the browser
    would do, one run of the script returns normally with exit status 0,
    never makes a browser call, never runs [pkill], and touches the
    filesystem at most once, to list [*.csv] in the store directory. *)
Theorem main_always_exits_zero_without_browser (fuel : nat) (tr : trace) :
  exists added,
    PriceDataApp.main cfg w fuel tr = (Ok tt, tr ++ added)
    /\ PriceDataApp.exit_status (fst (PriceDataApp.main cfg w fuel tr)) = Some 0
    /\ Forall (fun ev => is_browser_event ev = false /\ ev <> EvPkill) added
    /\ (List.filter is_filesystem_event added = []
        \/ List.filter is_filesystem_event added
           = [EvGlob (RAW_SAVED_DIR cfg) "*.csv"]).
Proof.
  rewrite run_main. eexists. split; [reflexivity|]. split; [reflexivity|].
  assert (Hlog : forall l msg,
            List.filter is_filesystem_event (logged cfg l msg) = []).
  { intros l msg. unfold logged. now destruct (threshold cfg <=? levelno l). }
  destruct (bool_decide (weekday (today w) ∈ WEEKEND_DAYS cfg)).
  - split.
    + events_forall; split; try reflexivity; discriminate.
    + left. now rewrite List.filter_app, !Hlog.
  - split.
    + destruct (glob_in (files w tr) (RAW_SAVED_DIR cfg) "*.csv");
        events_forall; split; try reflexivity; discriminate.
    + right. cbn [app List.filter is_filesystem_event].
      destruct (glob_in (files w tr) (RAW_SAVED_DIR cfg) "*.csv");
        now rewrite ?List.filter_app, !Hlog.
Qed.

(** X13.  Without [--log] the script writes nothing at all: a run adds no
    event on a non-trading day and only the listing of the store directory
    on a trading day; no log record and no traceback appears, also when
    the run failed. *)
Theorem main_is_silent_without_log_flag (fuel : nat) (tr : trace) :
  args_log cfg = false ->
  PriceDataApp.main cfg w fuel tr
  = (Ok tt,
     tr ++ if bool_decide (weekday (today w) ∈ WEEKEND_DAYS cfg)
           then [] else [EvGlob (RAW_SAVED_DIR cfg) "*.csv"]).
Proof.
  intros Hflag. rewrite run_main.
  assert (Hlog : forall l msg, logged cfg l msg = []).
  { intros l msg. unfold logged, threshold. rewrite Hflag. now destruct l. }
  destruct (bool_decide (weekday (today w) ∈ WEEKEND_DAYS cfg)).
  - now rewrite !Hlog.
  - destruct (glob_in (files w tr) (RAW_SAVED_DIR cfg) "*.csv");
      now rewrite !Hlog.
Qed.

(** X14.  [get_todays_files] never reports a file: it returns a list only
    when the store directory holds no [*.csv] entry, and the list is then
    empty; with any such entry it raises [TypeError] after the listing. *)
Theorem get_todays_files_never_reports_a_file
    (raw_dir : string) (tr : trace) :
  (forall l tr',
     PriceFileManager.get_todays_files w raw_dir tr = (Ok l, tr') ->
     l = [] /\ glob_in (files w tr) raw_dir "*.csv" = [])
  /\ (glob_in (files w tr) raw_dir "*.csv" = [] ->
      PriceFileManager.get_todays_files w raw_dir tr
      = (Ok [], tr ++ [EvGlob raw_dir "*.csv"]))
  /\ (glob_in (files w tr) raw_dir "*.csv" <> [] ->
      PriceFileManager.get_todays_files w raw_dir tr
      = (Raise TypeError, tr ++ [EvGlob raw_dir "*.csv"])).
Proof.
  split; [|split].
  - intros l tr' H.
    destruct (glob_in (files w tr) raw_dir "*.csv") as [|p ps] eqn:Eg.
    + rewrite (run_get_todays_files_empty w raw_dir tr Eg) in H.
      injection H as <- _. auto.
    + rewrite run_get_todays_files_nonempty in H; [discriminate|].
      rewrite Eg. discriminate.
  - apply run_get_todays_files_empty.
  - apply run_get_todays_files_nonempty.
Qed.

End WholeRun.

(** ** Further properties: file names and dates *)

Section Naming.

Variable w : world.

(** What [get_file_by_date] hands back is the path it asked about. *)
Lemma get_file_by_date_found raw_dir date_str tr p tr' :
  PriceFileManager.get_file_by_date w raw_dir date_str tr = (Ok (Some p), tr') ->
  p = PyPath.join raw_dir (PriceFileManager.expected_filename date_str).
Proof.
  unfold PriceFileManager.get_file_by_date. cbv zeta. unfold bind.
  rewrite run_is_file.
  destruct (PyStr.has_char NUL _); [discriminate|].
  destruct (stat_fault w tr _) as [en|]; [destruct (ignored_errno en)|];
    try discriminate.
  destruct (is_file_in (files w tr) _); [|discriminate].
  unfold ret. congruence.
Qed.

(** In one directory, names without separator give different paths. *)
Lemma join_plain_inj dir f g :
  free_of "/" f = true -> f <> EmptyString -> f <> "."%string ->
  free_of "/" g = true -> g <> EmptyString -> g <> "."%string ->
  PyPath.join dir f = PyPath.join dir g -> f = g.
Proof.
  intros Hf Hfe Hfd Hg Hge Hgd.
  rewrite (join_plain dir f Hf Hfe Hfd), (join_plain dir g Hg Hge Hgd).
  destruct (String.eqb dir "."); [auto|].
  destruct (String.eqb dir "/" || String.eqb dir "//").
  - apply append_inj_l.
  - intros H. apply append_inj_l in H. now apply append_inj_l in H.
Qed.

(** X15.  For date strings without the separator ["/"], a path is the
    artifact of one date string only: when [get_file_by_date] finds a file
    for each of two such strings, the two files are the same path exactly
    when the strings are equal.  (With separators this fails: [pathlib]
    drops empty and ["."] components, so ["x//2024-05-20"] and
    ["x/2024-05-20"] name one path.) *)
Theorem get_file_by_date_separates_dates
    (raw_dir d1 d2 p1 p2 : string) (tr1 tr2 tr1' tr2' : trace) :
  free_of "/" d1 = true ->
  free_of "/" d2 = true ->
  PriceFileManager.get_file_by_date w raw_dir d1 tr1 = (Ok (Some p1), tr1') ->
  PriceFileManager.get_file_by_date w raw_dir d2 tr2 = (Ok (Some p2), tr2') ->
  p1 = p2 <-> d1 = d2.
Proof.
  intros Hd1 Hd2 H1 H2.
  apply get_file_by_date_found in H1. apply get_file_by_date_found in H2.
  destruct (expected_filename_plain d1 Hd1) as (Hf1 & Hn1 & Hdot1).
  destruct (expected_filename_plain d2 Hd2) as (Hf2 & Hn2 & Hdot2).
  subst p1 p2. split.
  - intros H. apply expected_filename_inj.
    exact (join_plain_inj raw_dir _ _ Hf1 Hn1 Hdot1 Hf2 Hn2 Hdot2 H).
  - now intros ->.
Qed.

End Naming.

Lemma nat_of_digit_char k :
  nat_of_ascii (PyStrftime.digit_char k) = Z.to_nat (48 + k mod 10).
Proof.
  unfold PyStrftime.digit_char. apply nat_ascii_embedding.
  pose proof (Z.mod_pos_bound k 10 ltac:(lia)). lia.
Qed.

Lemma is_digit_digit_char k : is_digit (PyStrftime.digit_char k) = true.
Proof.
  unfold is_digit. rewrite nat_of_digit_char.
  pose proof (Z.mod_pos_bound k 10 ltac:(lia)).
  apply andb_true_iff. split; apply Nat.leb_le; lia.
Qed.

Lemma digit_digit_char k : digit (PyStrftime.digit_char k) = k mod 10.
Proof.
  unfold digit. rewrite nat_of_digit_char.
  pose proof (Z.mod_pos_bound k 10 ltac:(lia)). lia.
Qed.

Lemma strftime_default d :
  1000 <= year d ->
  PyStrftime.strftime default_DATE_FORMAT d
  = Some (PyStrftime.four_digits (year d)
          +:+ "-" +:+ PyStrftime.two_digits (month d)
          +:+ "-" +:+ PyStrftime.two_digits (day d)).
Proof.
  intros Hy. unfold default_DATE_FORMAT. cbn.
  unfold PyStrftime.directive. cbn.
  replace (1000 <=? year d) with true by (symmetry; now apply Z.leb_le).
  reflexivity.
Qed.

Lemma parse_month_two_digits m r :
  1 <= m <= 12 ->
  parse_month (PyStrftime.two_digits m +:+ String "-" r) = Some (m, r).
Proof.
  intros Hm.
  assert (H : exists n : nat, m = Z.of_nat n /\ (1 <= n <= 12)%nat).
  { exists (Z.to_nat m). lia. }
  destruct H as (n & -> & Hn).
  do 13 (destruct n as [|n]; [try lia; vm_compute; reflexivity|]). lia.
Qed.

Lemma parse_day_two_digits d :
  1 <= d <= 31 ->
  parse_day (PyStrftime.two_digits d) = Some (d, EmptyString).
Proof.
  intros Hd.
  assert (H : exists n : nat, d = Z.of_nat n /\ (1 <= n <= 31)%nat).
  { exists (Z.to_nat d). lia. }
  destruct H as (n & -> & Hn).
  do 32 (destruct n as [|n]; [try lia; vm_compute; reflexivity|]). lia.
Qed.

Lemma days_in_month_le_31 y m : days_in_month y m <= 31.
Proof.
  unfold days_in_month.
  destruct (m =? 2); [destruct (is_leap y); lia|].
  destruct ((m =? 4) || (m =? 6) || (m =? 9) || (m =? 11)); lia.
Qed.

(** Parsing undoes printing. *)
Lemma strptime_of_strftime d :
  valid_date d ->
  strptime_ymd (PyStrftime.four_digits (year d)
                +:+ "-" +:+ PyStrftime.two_digits (month d)
                +:+ "-" +:+ PyStrftime.two_digits (day d))
  = Some d.
Proof.
  intros ((Hy1 & Hy2) & Hm & Hd1 & Hd2). destruct d as [y m dd]. cbn in *.
  pose proof (days_in_month_le_31 y m) as H31.
  change (strptime_ymd
            (String (PyStrftime.digit_char (y / 1000))
               (String (PyStrftime.digit_char (y / 100))
                  (String (PyStrftime.digit_char (y / 10))
                     (String (PyStrftime.digit_char y)
                        (String "-"
                           (PyStrftime.two_digits m
                            +:+ String "-" (PyStrftime.two_digits dd)))))))
          = Some (mkdate y m dd)).
  unfold strptime_ymd. rewrite !is_digit_digit_char. cbn [andb].
  rewrite parse_month_two_digits by exact Hm.
  rewrite parse_day_two_digits by lia.
  rewrite !digit_digit_char.
  assert (Hyear : 1000 * ((y / 1000) mod 10) + 100 * ((y / 100) mod 10)
                  + 10 * ((y / 10) mod 10) + y mod 10 = y)
    by (Z.div_mod_to_equations; lia).
  rewrite Hyear.
  replace (1 <=? y) with true by (symmetry; apply Z.leb_le; lia).
  replace (dd <=? days_in_month y m) with true
    by (symmetry; apply Z.leb_le; lia).
  reflexivity.
Qed.

Lemma split_label_step s :
  PyStr.split_from " - " 0 "" ("Today's Price - " +:+ s)
  = "Today's Price" :: PyStr.split_from " - " 0 "" s.
Proof. destruct s; reflexivity. Qed.

Lemma split_label s :
  free_of " " s = true ->
  PyStr.split " - " ("Today's Price - " +:+ s) = ["Today's Price"; s].
Proof.
  intros Hs. unfold PyStr.split. rewrite split_label_step.
  now rewrite (split_from_free " " "- " "" s Hs).
Qed.

(** The date text that [is_file_from_today] reads off the file
    [get_file_by_date] names for [s] is [s] itself, for a text of digits
    and hyphens. *)
Lemma date_str_of_expected raw_dir s :
  date_text s = true ->
  PriceFileManager.date_str_of
    (PyPath.join raw_dir (PriceFileManager.expected_filename s))
  = s.
Proof.
  intros Hs.
  assert (Hslash : free_of "/" s = true)
    by (apply free_of_date_text; [exact Hs|reflexivity|discriminate]).
  assert (Hdot : free_of "." s = true)
    by (apply free_of_date_text; [exact Hs|reflexivity|discriminate]).
  assert (Hspace : free_of " " s = true)
    by (apply free_of_date_text; [exact Hs|reflexivity|discriminate]).
  unfold PriceFileManager.date_str_of, PyPath.stem.
  destruct (expected_filename_plain s Hslash) as (Hf & Hne & Hnd).
  rewrite (name_join raw_dir _ Hf Hne Hnd).
  rewrite expected_filename_eq.
  rewrite <- append_assoc. cbv zeta.
  rewrite (stem_csv ("Today's Price - " +:+ s)).
  - rewrite split_label by exact Hspace. reflexivity.
  - rewrite free_of_app, Hdot. reflexivity.
  - discriminate.
Qed.

Lemma is_ascii_date_text s : date_text s = true -> PyStr.is_ascii s = true.
Proof.
  induction s as [|x s IH]; [reflexivity|]. cbn [date_text PyStr.is_ascii].
  intros H. apply andb_true_iff in H as [Hx Hs]. rewrite (IH Hs), andb_true_r.
  apply orb_true_iff in Hx as [Hx|Hx].
  - apply Nat.ltb_lt. unfold is_digit in Hx.
    apply andb_true_iff in Hx as [_ Hx]. apply Nat.leb_le in Hx. lia.
  - apply Ascii.eqb_eq in Hx. subst x. reflexivity.
Qed.

(** The date check on the file [get_file_by_date] names for a text of
    digits and hyphens parses that text. *)
Lemma parse_date_text w s :
  date_text s = true -> PriceFileManager.parse_date w s = strptime_ymd s.
Proof.
  intros Hs. unfold PriceFileManager.parse_date.
  now rewrite (is_ascii_date_text s Hs).
Qed.

Lemma date_text_formatted d :
  date_text (PyStrftime.four_digits (year d)
             +:+ "-" +:+ PyStrftime.two_digits (month d)
             +:+ "-" +:+ PyStrftime.two_digits (day d))
  = true.
Proof.
  change (date_text
            (String (PyStrftime.digit_char (year d / 1000))
               (String (PyStrftime.digit_char (year d / 100))
                  (String (PyStrftime.digit_char (year d / 10))
                     (String (PyStrftime.digit_char (year d))
                        (String "-"
                           (String (PyStrftime.digit_char (month d / 10))
                              (String (PyStrftime.digit_char (month d))
                                 (String "-"
                                    (String (PyStrftime.digit_char (day d / 10))
                                       (String (PyStrftime.digit_char (day d))
                                          ""))))))))))
          = true).
  cbn [date_text]. rewrite !is_digit_digit_char. reflexivity.
Qed.

Section RoundTrip.

Variable w : world.

(** X16.  Naming and recognising agree.  For a date [d] of the calendar
    with a four-digit year, take the file that [get_file_by_date] looks up
    for [d] printed with the default [DATE_FORMAT], in any store
    directory: [is_file_from_today] reads [d] back from its name and
    answers whether [d] is today's date. *)
Theorem is_file_from_today_reads_back_the_date
    (raw_dir : string) (d : date) (date_str : string) (tr : trace) :
  valid_date d ->
  PyStrftime.strftime default_DATE_FORMAT d = Some date_str ->
  PriceFileManager.is_file_from_today w
    (PyPath.join raw_dir (PriceFileManager.expected_filename date_str)) tr
  = (Ok (bool_decide (d = today w)), tr).
Proof.
  intros Hv Hfmt.
  rewrite strftime_default in Hfmt by apply Hv. injection Hfmt as <-.
  unfold PriceFileManager.is_file_from_today.
  rewrite date_str_of_expected by apply date_text_formatted.
  rewrite parse_date_text by apply date_text_formatted.
  now rewrite strptime_of_strftime.
Qed.

(** X17.  The file [get_file_by_date] looks up for today's date string,
    as [get_today_date_str] gives it with the default [DATE_FORMAT], is a
    file [is_file_from_today] accepts. *)
Theorem todays_expected_file_is_from_today
    (raw_dir date_str : string) (tr : trace) :
  valid_date (today w) ->
  get_today_date_str default_DATE_FORMAT w = Some date_str ->
  PriceFileManager.is_file_from_today w
    (PyPath.join raw_dir (PriceFileManager.expected_filename date_str)) tr
  = (Ok true, tr).
Proof.
  intros Hv Hs. unfold get_today_date_str in Hs.
  rewrite strftime_default in Hs by apply Hv. injection Hs as <-.
  unfold PriceFileManager.is_file_from_today.
  rewrite date_str_of_expected by apply date_text_formatted.
  rewrite parse_date_text by apply date_text_formatted.
  rewrite strptime_of_strftime by exact Hv.
  now rewrite bool_decide_eq_true_2.
Qed.

End RoundTrip.

Lemma is_file_from_today_reads_back_the_date_witness :
  PriceFileManager.is_file_from_today (calm_world (mkdate 2024 5 21) [])
    "/srv/nepse/todays_price/Today's Price - 2024-05-20.csv" []
  = (Ok false, []).
Proof.
  refine (is_file_from_today_reads_back_the_date
            (calm_world (mkdate 2024 5 21) []) "/srv/nepse/todays_price"
            (mkdate 2024 5 20) "2024-05-20" [] _ _).
  - unfold valid_date. vm_compute. repeat split; discriminate.
  - vm_compute. reflexivity.
Defined.

Lemma todays_expected_file_is_from_today_witness :
  PriceFileManager.is_file_from_today (calm_world (mkdate 2024 5 20) [])
    "/srv/nepse/todays_price/Today's Price - 2024-05-20.csv" []
  = (Ok true, []).
Proof.
  refine (todays_expected_file_is_from_today
            (calm_world (mkdate 2024 5 20) []) "/srv/nepse/todays_price"
            "2024-05-20" [] _ _).
  - unfold valid_date. vm_compute. repeat split; discriminate.
  - vm_compute. reflexivity.
Defined.

(** ** Further properties: the weekday test *)

Lemma weekday_range d : 0 <= weekday d <= 6.
Proof. unfold weekday. pose proof (Z.mod_pos_bound (toordinal d + 6) 7). lia. Qed.

(** X18.  [is_weekend] can only be true through an index from 0 (Monday)
    to 6 (Sunday): with a [WEEKEND_DAYS] that holds no such index, for
    instance [{7}] for Sunday, no date is a non-trading day. *)
Theorem is_weekend_needs_an_index_below_seven
    (cfg : config) (w : world) (tr : trace) :
  (forall i, i ∈ WEEKEND_DAYS cfg -> i < 0 \/ 6 < i) ->
  MarketChecker.is_weekend cfg w tr = (Ok false, tr).
Proof.
  intros Hout. rewrite run_is_weekend.
  rewrite bool_decide_eq_false_2; [reflexivity|].
  intros Hin. pose proof (weekday_range (today w)) as Hr.
  destruct (Hout _ Hin); lia.
Qed.

Lemma is_weekend_needs_an_index_below_seven_witness :
  MarketChecker.is_weekend sunday_as_seven_config
    (calm_world (mkdate 2024 5 26) []) []
  = (Ok false, []).
Proof.
  apply is_weekend_needs_an_index_below_seven.
  intros i Hi. unfold sunday_as_seven_config in Hi. cbn in Hi.
  apply elem_of_singleton in Hi. lia.
Defined.

(** ** The further properties on sample runs *)

Lemma session_start_failure_propagates_witness :
  DownloadFile.download_todays_price sample_config
    (no_chrome_world (mkdate 2024 5 20) []) time_global 100 []
  = (Raise WebDriverException, [EvBrowserStart]).
Proof.
  exact (session_start_failure_propagates sample_config
           (no_chrome_world (mkdate 2024 5 20) []) time_global 100 []
           WebDriverException eq_refl).
Defined.

Lemma first_script_failure_leaves_session_open_witness :
  DownloadFile.download_todays_price sample_config
    (script_fails_world (mkdate 2024 5 20) []) time_module 100 []
  = (Raise JavascriptException,
     [EvBrowserStart; EvExecuteScript DownloadFile.stealth_script None]).
Proof.
  exact (first_script_failure_leaves_session_open sample_config
           (script_fails_world (mkdate 2024 5 20) []) time_module 100 []
           JavascriptException eq_refl eq_refl).
Defined.


Lemma await_returns_file_only_without_marker_witness :
  exists tr1,
    [EvGlob "/srv/nepse/todays_price" "*";
     EvGlob "/srv/nepse/todays_price" "*.crdownload";
     EvSleep 1;
     EvGlob "/srv/nepse/todays_price" "*";
     EvGlob "/srv/nepse/todays_price" "*.crdownload";
     EvSleep 1;
     EvGlob "/srv/nepse/todays_price" "*";
     EvGlob "/srv/nepse/todays_price" "*.crdownload"]
    = tr1 ++ [EvGlob "/srv/nepse/todays_price" "*";
              EvGlob "/srv/nepse/todays_price" "*.crdownload"]
    /\ glob_in
         (files transfer_world (tr1 ++ [EvGlob "/srv/nepse/todays_price" "*"]))
         "/srv/nepse/todays_price" "*.crdownload"
       = [].
Proof.
  destruct (await_returns_file_only_without_marker sample_config
              transfer_world time_module 100 "/srv/nepse/todays_price"
              {["/srv/nepse/todays_price/notes.csv"]} 60 []
              [EvGlob "/srv/nepse/todays_price" "*";
               EvGlob "/srv/nepse/todays_price" "*.crdownload";
               EvSleep 1;
               EvGlob "/srv/nepse/todays_price" "*";
               EvGlob "/srv/nepse/todays_price" "*.crdownload";
               EvSleep 1;
               EvGlob "/srv/nepse/todays_price" "*";
               EvGlob "/srv/nepse/todays_price" "*.crdownload"]
              "/srv/nepse/todays_price/Today's Price - 2024-05-20.csv")
    as (tr1 & H1 & H2 & _).
  - vm_compute. reflexivity.
  - exists tr1. split; [exact H1|exact H2].
Defined.

Lemma await_returns_none_only_after_timeout_witness :
  2 <= now (calm_world (mkdate 2024 5 20) [])
         [EvGlob "/srv/nepse/todays_price" "*";
          EvGlob "/srv/nepse/todays_price" "*.crdownload";
          EvSleep 1;
          EvGlob "/srv/nepse/todays_price" "*";
          EvGlob "/srv/nepse/todays_price" "*.crdownload";
          EvSleep 1]
       - now (calm_world (mkdate 2024 5 20) []) [].
Proof.
  refine (await_returns_none_only_after_timeout sample_config
            (calm_world (mkdate 2024 5 20) []) time_module 10
            "/srv/nepse/todays_price" ∅ 2 [] _ _).
  vm_compute. reflexivity.
Defined.


Lemma main_is_silent_without_log_flag_witness :
  PriceDataApp.main sample_config (calm_world (mkdate 2024 5 20) []) 100 []
  = (Ok tt, [EvGlob "/srv/nepse/todays_price" "*.csv"]).
Proof.
  exact (main_is_silent_without_log_flag sample_config
           (calm_world (mkdate 2024 5 20) []) 100 [] eq_refl).
Defined.

Lemma get_file_by_date_separates_dates_witness :
  "/srv/nepse/todays_price/Today's Price - 2024-05-20.csv"
  = "/srv/nepse/todays_price/Today's Price - 2024-05-21.csv"
  <-> "2024-05-20" = "2024-05-21".
Proof.
  refine (get_file_by_date_separates_dates
            (calm_world (mkdate 2024 5 21)
               [artifact_2024_05_20; artifact_2024_05_21])
            "/srv/nepse/todays_price" "2024-05-20" "2024-05-21"
            "/srv/nepse/todays_price/Today's Price - 2024-05-20.csv"
            "/srv/nepse/todays_price/Today's Price - 2024-05-21.csv"
            [] [] _ _ _ _ _ _); vm_compute; reflexivity.
Defined.
